(** * core/models.py: the persistent data model of the volunteer-matching service

    A shallow embedding of [backend/core/models.py].  Every Django model class
    becomes a module holding the record of its columns; the database is a
    record of tables (lists of rows, in insertion order) threaded explicitly
    through every operation; an operation that can raise returns the
    database it leaves behind together with its outcome.

    What Django itself contributes (the INSERT or UPDATE behind [Model.save],
    UNIQUE constraints, [auto_now_add], the cascade collector of
    [Model.delete], field validators) is modelled next to the declaration
    that asks for it.  A call reads the clock once: the instant [now] it is
    given.  Inserts of child rows are not modelled; that their foreign keys
    point at issued keys is a predicate on the database
    ([request_fks_issued]).  [max_length] is the engine's and is left out. *)

From Stdlib Require Import List String Ascii ZArith NArith QArith Qpower Lia Bool Arith FinFun.
From Stdlib Require Import Decimal DecimalString DecimalZ DecimalN DecimalFacts.
Import ListNotations.

Open Scope string_scope.
Open Scope Z_scope.

(** ** Time: [django.utils.timezone] *)

(** An aware UTC [datetime]: microseconds since 1970-01-01T00:00:00Z. *)
Definition datetime := Z.

(** [timezone.timedelta(minutes=m)], in microseconds. *)
Definition timedelta (minutes : Z) : Z := minutes * 60 * 1000000.

(** [datetime.year]: the proleptic Gregorian year of the instant's UTC day. *)
Definition year (t : datetime) : Z :=
  let days := t / 86400000000 in
  let z := days + 719468 in
  let era := z / 146097 in
  let doe := z - era * 146097 in
  let yoe := (doe - doe / 1460 + doe / 36524 - doe / 146096) / 365 in
  let doy := doe - (365 * yoe + yoe / 4 - yoe / 100) in
  let mp := (5 * doy + 2) / 153 in
  let m := if mp <? 10 then mp + 3 else mp - 9 in
  let y := yoe + era * 400 in
  if m <=? 2 then y + 1 else y.

(** ** Python string formatting *)

(** [str(n)] for an [int]. *)
Definition str (n : Z) : string := NilZero.string_of_int (Z.to_int n).

Fixpoint zeros (k : nat) : string :=
  match k with
  | O => ""
  | S k' => String "0" (zeros k')
  end.

(** [s.zfill(width)] for a string of digits. *)
Definition zfill (width : nat) (s : string) : string :=
  zeros (width - String.length s) ++ s.

(** [f"{n:05d}"]: sign first, then the digits zero-padded to a total width
    of at least five; a longer number is printed in full. *)
Definition format_05d (n : Z) : string :=
  match Z.to_int n with
  | Pos d => zfill 5 (NilEmpty.string_of_uint d)
  | Neg d => String "-" (zfill 4 (NilEmpty.string_of_uint d))
  end.

(** [s.startswith(p)], the [__startswith] lookup. *)
Definition startswith (s p : string) : bool := String.prefix p s.

(** [int(s)] for a string of decimal digits. *)
Definition int (s : string) : option Z :=
  match s with
  | "" => None
  | _ => option_map Z.of_uint (NilEmpty.uint_of_string s)
  end.

(** ** [decimal.Decimal] *)

(** A finite [Decimal] as [as_tuple()] shows it: sign, coefficient (whose
    decimal digits are the digit tuple) and exponent.  Its value is
    [(-1)^sign * coefficient * 10^exponent]. *)
Module Decimal.
Record t := mk { sign : bool; coefficient : N; exponent : Z }.

Definition digit_tuple (d : t) : uint := N.to_uint (coefficient d).

Definition value (d : t) : Q :=
    let c := inject_Z (Z.of_N (coefficient d)) in
    let v := (c * Qpower (inject_Z 10) (exponent d))%Q in
    if sign d then Qopp v else v.
End Decimal.

(** ** The models *)

Module User.
Definition ROLE_PIN := "PIN".
Definition ROLE_CV := "CV".
Definition ROLE_CSR := "CSR".
Definition ROLE_ADMIN := "ADMIN".
Definition ROLE_CHOICES :=
    [ (ROLE_PIN, "Person in Need"); (ROLE_CV, "Corporate Volunteer");
      (ROLE_CSR, "CSR Representative"); (ROLE_ADMIN, "Platform Admin") ].

Record t := mk {
    pk : nat;
    username : string;
    full_name : string;
    date_of_birth : option Z;
    home_address : string;
    role : string;
    company_name : string;
    company_id : string;
    company_email : string
  }.
End User.

Module PINPreference.
Record t := mk {
    pk : nat;
    user : nat;
    preferred_language : string;
    preferred_volunteer_gender : string
  }.
End PINPreference.

Module ServiceRequest.
Definition SERVICE_CHOICES :=
    [ ("HEALTHCARE", "Healthcare"); ("ESCORT", "Escort");
      ("THERAPY_ESCORT", "Therapy Escort");
      ("DIALYSIS_ESCORT", "Dialysis Escort");
      ("VACCINE_ESCORT", "Vaccination / Check-Up Escort");
      ("MOBILITY_ESCORT", "Mobility Assistance Escort");
      ("COMMUNITY_ESCORT", "Community Event Escort") ].

Definition STATUS_PENDING := "PENDING".
Definition STATUS_ACTIVE := "ACTIVE".
Definition STATUS_COMPLETED := "COMPLETED".
Definition STATUS_CHOICES :=
    [ (STATUS_PENDING, "Pending"); (STATUS_ACTIVE, "Active");
      (STATUS_COMPLETED, "Completed") ].

  (** An instance; [pk] and [date_created] are [None] until the first
      INSERT. *)
Record t := mk {
    pk : option nat;
    request_id : string;
    pin : nat;
    service_type : string;
    appointment_date : datetime;
    pickup_location : string;
    service_location : string;
    description : string;
    status : string;
    date_created : option datetime;
    views : nat;
    shortlists : nat
  }.
End ServiceRequest.

Module RequestView.
Record t := mk { pk : nat; request : nat; viewer : nat; viewed_at : datetime }.
End RequestView.

Module Shortlist.
Record t := mk { pk : nat; request : nat; csr : nat; created_at : datetime }.
End Shortlist.

Module Match.
Record t := mk {
    pk : nat;
    request : nat;
    cv : nat;
    offered_at : datetime;
    accepted : option bool;
    accepted_at : option datetime
  }.
End Match.

Module Message.
Record t := mk {
    pk : nat; request : nat; sender : nat; text : string; sent_at : datetime
  }.
End Message.

Module FinancialClaim.
Record t := mk {
    pk : nat;
    request : nat;
    cv : nat;
    approved_by_pin : bool;
    approved_by_csr : bool;
    submitted_at : datetime
  }.
End FinancialClaim.

Module ClaimItem.
Record t := mk {
    pk : nat;
    claim : nat;
    category : string;
    date_of_expense : Z;
    total_amount : Decimal.t;
    payment_method : string;
    description : string
  }.
End ClaimItem.

Module Receipt.
Record t := mk { pk : nat; item : nat; image : string; uploaded_at : datetime }.
End Receipt.

Module Dispute.
Record t := mk {
    pk : nat;
    request : nat;
    pin : nat;
    incorrect_amount : bool;
    incorrect_item : bool;
    incorrect_receipt : bool;
    description : string;
    created_at : datetime
  }.
End Dispute.

Module OTPToken.
Record t := mk {
    pk : nat; user : nat; code : string; created_at : datetime; is_used : bool
  }.
End OTPToken.

(** ** The database *)

(** One table per model, rows in insertion order.  [seq_*] is the last
    primary key an AUTOINCREMENT column handed out. *)
Record DB := mkDB {
  users : list User.t;
  pin_prefs : list PINPreference.t;
  requests : list ServiceRequest.t;
  view_logs : list RequestView.t;
  shortlist_logs : list Shortlist.t;
  matches : list Match.t;
  messages : list Message.t;
  claims : list FinancialClaim.t;
  items : list ClaimItem.t;
  receipts : list Receipt.t;
  disputes : list Dispute.t;
  otp_tokens : list OTPToken.t;
  seq_pin_prefs : nat;
  seq_requests : nat;
  seq_matches : nat
}.

Definition empty_db : DB := mkDB [] [] [] [] [] [] [] [] [] [] [] [] 0 0 0.

Definition set_requests (db : DB) (rows : list ServiceRequest.t) (seq : nat) : DB :=
  mkDB (users db) (pin_prefs db) rows (view_logs db) (shortlist_logs db)
       (matches db) (messages db) (claims db) (items db) (receipts db)
       (disputes db) (otp_tokens db) (seq_pin_prefs db) seq (seq_matches db).

Definition set_pin_prefs (db : DB) (rows : list PINPreference.t) (seq : nat) : DB :=
  mkDB (users db) rows (requests db) (view_logs db) (shortlist_logs db)
       (matches db) (messages db) (claims db) (items db) (receipts db)
       (disputes db) (otp_tokens db) seq (seq_requests db) (seq_matches db).

Definition set_matches (db : DB) (rows : list Match.t) (seq : nat) : DB :=
  mkDB (users db) (pin_prefs db) (requests db) (view_logs db) (shortlist_logs db)
       rows (messages db) (claims db) (items db) (receipts db)
       (disputes db) (otp_tokens db) (seq_pin_prefs db) (seq_requests db) seq.

(** ** Exceptions and outcomes *)

Inductive exn :=
| IntegrityError (unique_column : string)
    (** a UNIQUE constraint failed: the spec's UniquenessError *)
| ValidationError (codes : list string)
| ValueError.

Inductive outcome (A : Type) :=
| Return (a : A)
| Raise (e : exn).
Arguments Return {A} a.
Arguments Raise {A} e.

(** ** ServiceRequest *)

Import ServiceRequest.

Definition set_request_id (r : ServiceRequest.t) (rid : string) : ServiceRequest.t :=
  mk (pk r) rid (pin r) (service_type r) (appointment_date r) (pickup_location r)
     (service_location r) (description r) (status r) (date_created r) (views r)
     (shortlists r).

Definition set_pk (r : ServiceRequest.t) (k : nat) : ServiceRequest.t :=
  mk (Some k) (request_id r) (pin r) (service_type r) (appointment_date r)
     (pickup_location r) (service_location r) (description r) (status r)
     (date_created r) (views r) (shortlists r).

Definition set_date_created (r : ServiceRequest.t) (t : datetime) : ServiceRequest.t :=
  mk (pk r) (request_id r) (pin r) (service_type r) (appointment_date r)
     (pickup_location r) (service_location r) (description r) (status r)
     (Some t) (views r) (shortlists r).

Definition has_pk (k : nat) (r : ServiceRequest.t) : bool :=
  match pk r with
  | Some k' => Nat.eqb k' k
  | None => false
  end.

(** [unique=True] on [request_id]: some row other than [self]'s own holds
    the same identifier. *)
Definition request_id_taken (self : ServiceRequest.t) (rows : list ServiceRequest.t) : bool :=
  existsb (fun r => String.eqb (request_id r) (request_id self)
                    && negb (match pk self with Some k => has_pk k r | None => false end))
          rows.

(** The INSERT of [Model.save]: [auto_now_add] stamps [date_created] on the
    instance, then the row is written under the next key of the sequence,
    or under the instance's own when it has one (which must be free). *)
Definition insert (now : datetime) (self : ServiceRequest.t) (db : DB)
  : DB * ServiceRequest.t * outcome unit :=
  let self := set_date_created self now in
  let k := match pk self with Some k => k | None => S (seq_requests db) end in
  if match pk self with Some k => existsb (has_pk k) (requests db) | None => false end
  then (db, self, Raise (IntegrityError "id"))
  else if request_id_taken self (requests db)
  then (db, self, Raise (IntegrityError "request_id"))
  else
    let self := set_pk self k in
    (set_requests db (requests db ++ [self]) (Nat.max (seq_requests db) k),
     self, Return tt).

(** The UPDATE of [Model.save]: the row of the instance's key takes the
    instance's columns. *)
Definition update (k : nat) (self : ServiceRequest.t) (db : DB)
  : DB * ServiceRequest.t * outcome unit :=
  if request_id_taken self (requests db)
  then (db, self, Raise (IntegrityError "request_id"))
  else
    (set_requests db (map (fun r => if has_pk k r then self else r) (requests db))
                  (seq_requests db),
     self, Return tt).

(** [models.Model.save]: UPDATE when the instance has a key that is stored
    and no INSERT is forced, INSERT otherwise. *)
Definition Model_save (now : datetime) (force_insert : bool)
    (self : ServiceRequest.t) (db : DB) : DB * ServiceRequest.t * outcome unit :=
  match pk self with
  | Some k =>
      if negb force_insert && existsb (has_pk k) (requests db)
      then update k self db
      else insert now self db
  | None => insert now self db
  end.

(** [ServiceRequest.save]; the instance is returned as the call leaves it. *)
Definition save (now : datetime) (force_insert : bool)
    (self : ServiceRequest.t) (db : DB) : DB * ServiceRequest.t * outcome unit :=
  let self :=
    if String.eqb (request_id self) "" then
      let prefix := "RQ-" ++ str (year now) ++ "-" in
      let count :=
        Z.of_nat (List.length
          (filter (fun r => startswith (request_id r) prefix) (requests db))) + 1 in
      set_request_id self (prefix ++ format_05d count)
    else self in
  Model_save now force_insert self db.

(** The constructor call [ServiceRequest(pin=..., ...)] with the keywords
    [duplicate] passes: the other columns take their declared defaults. *)
Definition init (pin : nat) (service_type : string) (appointment_date : datetime)
    (pickup_location service_location description : string) : ServiceRequest.t :=
  mk None "" pin service_type appointment_date pickup_location service_location
     description STATUS_PENDING None 0 0.

(** [ServiceRequest.objects.create(...)]: build the instance, save it
    with [force_insert=True], return it. *)
Definition objects_create (now : datetime) (pin : nat) (service_type : string)
    (appointment_date : datetime)
    (pickup_location service_location description : string) (db : DB)
  : DB * outcome ServiceRequest.t :=
  let obj := init pin service_type appointment_date pickup_location
                  service_location description in
  match save now true obj db with
  | (db', obj', Return _) => (db', Return obj')
  | (db', _, Raise e) => (db', Raise e)
  end.

(** [ServiceRequest.duplicate]. *)
Definition duplicate (now : datetime) (self : ServiceRequest.t)
    (new_appointment_dt : datetime) (db : DB) : DB * outcome ServiceRequest.t :=
  objects_create now (pin self) (service_type self) new_appointment_dt
                 (pickup_location self) (service_location self)
                 (description self) db.

(** [Model.delete] on a ServiceRequest.  The collector follows every
    [on_delete=models.CASCADE] foreign key that points at the request:
    RequestView, Shortlist, Match, Message, FinancialClaim and Dispute rows
    of the request, then the ClaimItem rows of the collected claims, then
    the Receipt rows of the collected items; everything collected is
    removed together with the request's own row. *)
Definition delete (self : ServiceRequest.t) (db : DB) : DB * outcome unit :=
  match pk self with
  | None => (db, Raise ValueError)
  | Some k =>
      let collected_claims :=
        filter (fun c => Nat.eqb (FinancialClaim.request c) k) (claims db) in
      let in_claims (i : ClaimItem.t) :=
        existsb (fun c => Nat.eqb (ClaimItem.claim i) (FinancialClaim.pk c))
                collected_claims in
      let collected_items := filter in_claims (items db) in
      let in_items (x : Receipt.t) :=
        existsb (fun i => Nat.eqb (Receipt.item x) (ClaimItem.pk i))
                collected_items in
      (mkDB (users db) (pin_prefs db)
            (filter (fun r => negb (has_pk k r)) (requests db))
            (filter (fun v => negb (Nat.eqb (RequestView.request v) k)) (view_logs db))
            (filter (fun s => negb (Nat.eqb (Shortlist.request s) k)) (shortlist_logs db))
            (filter (fun m => negb (Nat.eqb (Match.request m) k)) (matches db))
            (filter (fun m => negb (Nat.eqb (Message.request m) k)) (messages db))
            (filter (fun c => negb (Nat.eqb (FinancialClaim.request c) k)) (claims db))
            (filter (fun i => negb (in_claims i)) (items db))
            (filter (fun x => negb (in_items x)) (receipts db))
            (filter (fun d => negb (Nat.eqb (Dispute.request d) k)) (disputes db))
            (otp_tokens db) (seq_pin_prefs db) (seq_requests db) (seq_matches db),
       Return tt)
  end.

(** ** PINPreference and Match: one row per owner *)

(** [PINPreference.objects.create(user=..., ...)]: [user] is a
    [OneToOneField], so its column is UNIQUE. *)
Definition PINPreference_objects_create (user : nat)
    (preferred_language preferred_volunteer_gender : string) (db : DB)
  : DB * outcome PINPreference.t :=
  if existsb (fun p => Nat.eqb (PINPreference.user p) user) (pin_prefs db)
  then (db, Raise (IntegrityError "user_id"))
  else
    let k := S (seq_pin_prefs db) in
    let obj := PINPreference.mk k user preferred_language
                                preferred_volunteer_gender in
    (set_pin_prefs db (pin_prefs db ++ [obj]) k, Return obj).

(** [Match.objects.create(request=..., cv=..., ...)]: [request] is a
    [OneToOneField]; [offered_at] defaults to [timezone.now]. *)
Definition Match_objects_create (now : datetime) (request cv : nat)
    (offered_at : option datetime) (accepted : option bool)
    (accepted_at : option datetime) (db : DB) : DB * outcome Match.t :=
  if existsb (fun m => Nat.eqb (Match.request m) request) (matches db)
  then (db, Raise (IntegrityError "request_id"))
  else
    let k := S (seq_matches db) in
    let obj := Match.mk k request cv
                 (match offered_at with Some t => t | None => now end)
                 accepted accepted_at in
    (set_matches db (matches db ++ [obj]) k, Return obj).

(** ** ClaimItem.total_amount: field validation *)

(** [MinValueValidator(limit_value)]: the error code when
    [value < limit_value]. *)
Definition MinValueValidator (limit_value : Z) (value : Decimal.t) : list string :=
  if negb (Qle_bool (inject_Z limit_value) (Decimal.value value))
  then ["min_value"] else [].

(** [DecimalValidator(max_digits, decimal_places)], which a [DecimalField]
    adds for its [max_digits] and [decimal_places]. *)
Definition DecimalValidator (max_digits decimal_places : Z) (value : Decimal.t)
  : list string :=
  let len := Z.of_nat (nb_digits (Decimal.digit_tuple value)) in
  let exponent := Decimal.exponent value in
  let '(digits, decimals) :=
    if 0 <=? exponent then
      ((if N.eqb (Decimal.coefficient value) 0 then len else len + exponent), 0)
    else if len <? Z.abs exponent then (Z.abs exponent, Z.abs exponent)
    else (len, Z.abs exponent) in
  let whole_digits := digits - decimals in
  if max_digits <? digits then ["max_digits"]
  else if decimal_places <? decimals then ["max_decimal_places"]
  else if max_digits - decimal_places <? whole_digits then ["max_whole_digits"]
  else [].

(** [Field.run_validators]: every validator runs; the errors are raised
    together. *)
Definition run_validators (validators : list (Decimal.t -> list string))
    (value : Decimal.t) : outcome unit :=
  match flat_map (fun v => v value) validators with
  | [] => Return tt
  | errors => Raise (ValidationError errors)
  end.

(** The validators of [DecimalField(max_digits=10, decimal_places=2,
    validators=[MinValueValidator(0)])]. *)
Definition total_amount_validators : list (Decimal.t -> list string) :=
  [MinValueValidator 0; DecimalValidator 10 2].

Definition clean_total_amount (value : Decimal.t) : outcome unit :=
  run_validators total_amount_validators value.

(** ** OTPToken *)

(** [OTPToken.is_expired], read at the instant [now]. *)
Definition is_expired (now : datetime) (self : OTPToken.t) : bool :=
  now >? OTPToken.created_at self + timedelta 10.

(** ** Vocabulary of the properties *)

(** The prefix [f"RQ-{year}-"] that [save] builds. *)
Definition id_prefix (y : Z) : string := "RQ-" ++ str y ++ "-".

(** The queryset [filter(request_id__startswith=prefix)] for the year [y],
    and its [count()]. *)
Definition same_year (y : Z) (db : DB) : list ServiceRequest.t :=
  filter (fun r => startswith (request_id r) (id_prefix y)) (requests db).

Definition same_year_count (y : Z) (db : DB) : Z :=
  Z.of_nat (List.length (same_year y db)).

(** The slice [s[n:]]. *)
Fixpoint drop (n : nat) (s : string) : string :=
  match n, s with
  | O, _ => s
  | S n', String _ s' => drop n' s'
  | S _, EmptyString => EmptyString
  end.

(** What follows the year's prefix in an identifier, and its value as a
    number. *)
Definition suffix (y : Z) (rid : string) : string :=
  drop (String.length (id_prefix y)) rid.

Definition numeric_suffix (y : Z) (rid : string) : option Z := int (suffix y rid).

(** A string of exactly five decimal digits. *)
Definition is_digit (c : ascii) : bool :=
  let n := nat_of_ascii c in (48 <=? n)%nat && (n <=? 57)%nat.

Fixpoint all_digits (s : string) : bool :=
  match s with
  | EmptyString => true
  | String c s' => is_digit c && all_digits s'
  end.

Definition five_digits (s : string) : bool :=
  Nat.eqb (String.length s) 5 && all_digits s.

(** The identifiers already stored. *)
Definition stored_ids (db : DB) : list string := map request_id (requests db).

(** One call of [ServiceRequest.objects.create], made at the instant
    [called_at]. *)
Record creation := mkCreation {
  called_at : datetime;
  c_pin : nat;
  c_service_type : string;
  c_appointment_date : datetime;
  c_pickup_location : string;
  c_service_location : string;
  c_description : string
}.

Definition create (c : creation) (db : DB) : DB * outcome ServiceRequest.t :=
  objects_create (called_at c) (c_pin c) (c_service_type c) (c_appointment_date c)
                 (c_pickup_location c) (c_service_location c) (c_description c) db.

(** Creations made one after the other; the outcomes in call order. *)
Fixpoint create_all (cs : list creation) (db : DB)
  : DB * list (outcome ServiceRequest.t) :=
  match cs with
  | [] => (db, [])
  | c :: cs' =>
      let (db1, o) := create c db in
      let (db2, os) := create_all cs' db1 in
      (db2, o :: os)
  end.

(** The reverse relations of a request ([related_name]), by its key. *)
Definition view_logs_of (k : nat) (db : DB) : list RequestView.t :=
  filter (fun v => Nat.eqb (RequestView.request v) k) (view_logs db).
Definition shortlist_logs_of (k : nat) (db : DB) : list Shortlist.t :=
  filter (fun s => Nat.eqb (Shortlist.request s) k) (shortlist_logs db).
Definition match_of (k : nat) (db : DB) : list Match.t :=
  filter (fun m => Nat.eqb (Match.request m) k) (matches db).
Definition messages_of (k : nat) (db : DB) : list Message.t :=
  filter (fun m => Nat.eqb (Message.request m) k) (messages db).
Definition claims_of (k : nat) (db : DB) : list FinancialClaim.t :=
  filter (fun c => Nat.eqb (FinancialClaim.request c) k) (claims db).
Definition disputes_of (k : nat) (db : DB) : list Dispute.t :=
  filter (fun d => Nat.eqb (Dispute.request d) k) (disputes db).

(** Foreign keys to requests as the engine keeps them: a child row's
    [request] is a key the AUTOINCREMENT sequence has already issued. *)
Definition request_fks_issued (db : DB) : bool :=
  let issued k := (k <=? seq_requests db)%nat in
  forallb (fun v => issued (RequestView.request v)) (view_logs db)
  && forallb (fun s => issued (Shortlist.request s)) (shortlist_logs db)
  && forallb (fun m => issued (Match.request m)) (matches db)
  && forallb (fun m => issued (Message.request m)) (messages db)
  && forallb (fun c => issued (FinancialClaim.request c)) (claims db)
  && forallb (fun d => issued (Dispute.request d)) (disputes db).

(** The identifier [save] generates at the instant [now] over [db]. *)
Definition generated_id (now : datetime) (db : DB) : string :=
  id_prefix (year now) ++ format_05d (same_year_count (year now) db + 1).

Definition id_stored (rid : string) (db : DB) : bool :=
  existsb (String.eqb rid) (stored_ids db).

(** The identifiers of the year [y] stored in [db] are numbered [1..n], in
    insertion order: what creations alone leave behind. *)
Definition numbered (y : Z) (n : nat) (db : DB) : Prop :=
  map request_id (same_year y db)
  = map (fun i => id_prefix y ++ format_05d (Z.of_nat i)) (seq 1 n).

(** The row [objects.create] writes for the call [c] over [db]. *)
Definition new_row (c : creation) (db : DB) : ServiceRequest.t :=
  mk (Some (S (seq_requests db))) (generated_id (called_at c) db) (c_pin c)
     (c_service_type c) (c_appointment_date c) (c_pickup_location c)
     (c_service_location c) (c_description c) STATUS_PENDING
     (Some (called_at c)) 0 0.

(** ** Concrete scenarios *)

(** 2025-01-01T00:00:00Z, and a request the PIN user 1 files at that instant
    for the next day. *)
Definition new_year_2025 : datetime := 1735689600000000.

Definition call_2025 : creation :=
  mkCreation new_year_2025 1 "ESCORT" (new_year_2025 + 86400000000)
             "12 Home Road" "City Clinic" "".

(** Two requests filed at that instant, then the first deleted. *)
Definition first_2025 : ServiceRequest.t := new_row call_2025 empty_db.
Definition store_one : DB := fst (create call_2025 empty_db).
Definition second_2025 : ServiceRequest.t := new_row call_2025 store_one.
Definition store_two : DB := fst (create call_2025 store_one).
Definition store_after_delete : DB := fst (delete first_2025 store_two).

(** A request that has been viewed, shortlisted, matched, discussed, claimed
    for and disputed. *)
Definition busy_request : ServiceRequest.t :=
  mk (Some 1%nat) "RQ-2025-00001" 1 "DIALYSIS_ESCORT" (new_year_2025 + 86400000000)
     "12 Home Road" "City Clinic" "weekly session" STATUS_ACTIVE
     (Some new_year_2025) 3 2.

Definition busy_store : DB :=
  mkDB [] [] [busy_request]
       [RequestView.mk 1 1 5 (new_year_2025 + 1); RequestView.mk 2 1 6 (new_year_2025 + 2);
        RequestView.mk 3 1 5 (new_year_2025 + 3)]
       [Shortlist.mk 1 1 5 (new_year_2025 + 4); Shortlist.mk 2 1 7 (new_year_2025 + 5)]
       [Match.mk 1 1 6 (new_year_2025 + 6) (Some true) (Some (new_year_2025 + 7))]
       [Message.mk 1 1 6 "On my way" (new_year_2025 + 8)]
       [FinancialClaim.mk 1 1 6 false false (new_year_2025 + 9)]
       [ClaimItem.mk 1 1 "Taxi" 20089 (Decimal.mk false 1250 (-2)) "Cash" ""]
       [Receipt.mk 1 1 "receipts/taxi.jpg" (new_year_2025 + 10)]
       [Dispute.mk 1 1 1 true false false "fare too high" (new_year_2025 + 11)]
       [] 0 1 1.

(** The busy store with a second request (key 2) that has a view, a claim,
    an item and a receipt of its own. *)
Definition quiet_request : ServiceRequest.t :=
  mk (Some 2%nat) "RQ-2025-00002" 4 "ESCORT" (new_year_2025 + 259200000000)
     "3 Hill Street" "Community Hall" "" STATUS_PENDING
     (Some (new_year_2025 + 20)) 1 0.

Definition two_request_store : DB :=
  mkDB (users busy_store) (pin_prefs busy_store)
       (requests busy_store ++ [quiet_request])
       (view_logs busy_store ++ [RequestView.mk 4 2 5 (new_year_2025 + 21)])
       (shortlist_logs busy_store) (matches busy_store) (messages busy_store)
       (claims busy_store ++ [FinancialClaim.mk 2 2 6 true false (new_year_2025 + 22)])
       (items busy_store
        ++ [ClaimItem.mk 2 2 "Bus" 20090 (Decimal.mk false 300 (-2)) "Card" ""])
       (receipts busy_store ++ [Receipt.mk 2 2 "receipts/bus.jpg" (new_year_2025 + 23)])
       (disputes busy_store) (otp_tokens busy_store) 0 2 1.


(** ** Display strings *)

(** [get_status_display()]: the label [STATUS_CHOICES] gives the stored
    status, or the stored value itself when it is not one of the choices. *)
Fixpoint display (choices : list (string * string)) (value : string) : string :=
  match choices with
  | [] => value
  | (v, label) :: rest => if String.eqb v value then label else display rest value
  end.

Definition get_status_display (self : ServiceRequest.t) : string :=
  display STATUS_CHOICES (status self).

(** [ServiceRequest.__str__]. *)
Definition ServiceRequest_str (self : ServiceRequest.t) : string :=
  request_id self ++ " (" ++ get_status_display self ++ ")".

(** ** The other cascades *)

(** [Model.delete] on a ClaimItem: its Receipt rows go with it. *)
Definition ClaimItem_delete (self : ClaimItem.t) (db : DB) : DB :=
  let k := ClaimItem.pk self in
  mkDB (users db) (pin_prefs db) (requests db) (view_logs db) (shortlist_logs db)
       (matches db) (messages db) (claims db)
       (filter (fun i => negb (Nat.eqb (ClaimItem.pk i) k)) (items db))
       (filter (fun x => negb (Nat.eqb (Receipt.item x) k)) (receipts db))
       (disputes db) (otp_tokens db) (seq_pin_prefs db) (seq_requests db)
       (seq_matches db).

(** [Model.delete] on a FinancialClaim: its ClaimItem rows and their Receipt
    rows go with it. *)
Definition FinancialClaim_delete (self : FinancialClaim.t) (db : DB) : DB :=
  let k := FinancialClaim.pk self in
  let collected_items := filter (fun i => Nat.eqb (ClaimItem.claim i) k) (items db) in
  let in_items (x : Receipt.t) :=
    existsb (fun i => Nat.eqb (Receipt.item x) (ClaimItem.pk i)) collected_items in
  mkDB (users db) (pin_prefs db) (requests db) (view_logs db) (shortlist_logs db)
       (matches db) (messages db)
       (filter (fun c => negb (Nat.eqb (FinancialClaim.pk c) k)) (claims db))
       (filter (fun i => negb (Nat.eqb (ClaimItem.claim i) k)) (items db))
       (filter (fun x => negb (in_items x)) (receipts db))
       (disputes db) (otp_tokens db) (seq_pin_prefs db) (seq_requests db)
       (seq_matches db).

(** [Model.delete] on a User.  Every foreign key to User is
    [on_delete=models.CASCADE]: the collector takes the user's preference,
    OTP tokens and requests, every view, shortlist, match, message, claim
    and dispute that names the user or one of the collected requests, then
    the items of the collected claims and the receipts of the collected
    items. *)
Definition User_delete (self : User.t) (db : DB) : DB :=
  let k := User.pk self in
  let collected_requests := filter (fun r => Nat.eqb (pin r) k) (requests db) in
  let in_requests (j : nat) := existsb (has_pk j) collected_requests in
  let collected_claims :=
    filter (fun c => Nat.eqb (FinancialClaim.cv c) k
                     || in_requests (FinancialClaim.request c)) (claims db) in
  let in_claims (i : ClaimItem.t) :=
    existsb (fun c => Nat.eqb (ClaimItem.claim i) (FinancialClaim.pk c))
            collected_claims in
  let collected_items := filter in_claims (items db) in
  let in_items (x : Receipt.t) :=
    existsb (fun i => Nat.eqb (Receipt.item x) (ClaimItem.pk i))
            collected_items in
  mkDB (filter (fun u => negb (Nat.eqb (User.pk u) k)) (users db))
       (filter (fun p => negb (Nat.eqb (PINPreference.user p) k)) (pin_prefs db))
       (filter (fun r => negb (Nat.eqb (pin r) k)) (requests db))
       (filter (fun v => negb (Nat.eqb (RequestView.viewer v) k
                                || in_requests (RequestView.request v)))
               (view_logs db))
       (filter (fun s => negb (Nat.eqb (Shortlist.csr s) k
                                || in_requests (Shortlist.request s)))
               (shortlist_logs db))
       (filter (fun m => negb (Nat.eqb (Match.cv m) k
                                || in_requests (Match.request m)))
               (matches db))
       (filter (fun m => negb (Nat.eqb (Message.sender m) k
                                || in_requests (Message.request m)))
               (messages db))
       (filter (fun c => negb (Nat.eqb (FinancialClaim.cv c) k
                                || in_requests (FinancialClaim.request c)))
               (claims db))
       (filter (fun i => negb (in_claims i)) (items db))
       (filter (fun x => negb (in_items x)) (receipts db))
       (filter (fun d => negb (Nat.eqb (Dispute.pin d) k
                                || in_requests (Dispute.request d)))
               (disputes db))
       (filter (fun t => negb (Nat.eqb (OTPToken.user t) k)) (otp_tokens db))
       (seq_pin_prefs db) (seq_requests db) (seq_matches db).

(** ** Integrity of the stored state *)

Definition user_exists (k : nat) (db : DB) : bool :=
  existsb (fun u => Nat.eqb (User.pk u) k) (users db).
Definition request_exists (k : nat) (db : DB) : bool :=
  existsb (has_pk k) (requests db).
Definition claim_exists (k : nat) (db : DB) : bool :=
  existsb (fun c => Nat.eqb (FinancialClaim.pk c) k) (claims db).
Definition item_exists (k : nat) (db : DB) : bool :=
  existsb (fun i => Nat.eqb (ClaimItem.pk i) k) (items db).

(** Referential integrity: every foreign key stored names a stored row. *)
Definition referential_integrity (db : DB) : bool :=
  forallb (fun p => user_exists (PINPreference.user p) db) (pin_prefs db)
  && forallb (fun r => user_exists (pin r) db) (requests db)
  && forallb (fun v => request_exists (RequestView.request v) db
                       && user_exists (RequestView.viewer v) db) (view_logs db)
  && forallb (fun s => request_exists (Shortlist.request s) db
                       && user_exists (Shortlist.csr s) db) (shortlist_logs db)
  && forallb (fun m => request_exists (Match.request m) db
                       && user_exists (Match.cv m) db) (matches db)
  && forallb (fun m => request_exists (Message.request m) db
                       && user_exists (Message.sender m) db) (messages db)
  && forallb (fun c => request_exists (FinancialClaim.request c) db
                       && user_exists (FinancialClaim.cv c) db) (claims db)
  && forallb (fun i => claim_exists (ClaimItem.claim i) db) (items db)
  && forallb (fun x => item_exists (Receipt.item x) db) (receipts db)
  && forallb (fun d => request_exists (Dispute.request d) db
                       && user_exists (Dispute.pin d) db) (disputes db)
  && forallb (fun t => user_exists (OTPToken.user t) db) (otp_tokens db).

(** The requests table as the engine keeps it: every row has a key, no key
    above the last one issued, no key twice ([id] is the primary key) and no
    [request_id] twice ([unique=True]). *)
Definition keys_of (db : DB) : list (option nat) := map pk (requests db).

Definition requests_table_ok (db : DB) : Prop :=
  Forall (fun r => exists k, pk r = Some k /\ (k <= seq_requests db)%nat) (requests db)
  /\ NoDup (keys_of db)
  /\ NoDup (stored_ids db).

(** How many of the first [i] calls fall in the year [y]. *)
Definition earlier_in_year (y : Z) (cs : list creation) (i : nat) : nat :=
  List.length (filter (fun c => Z.eqb (year (called_at c)) y) (firstn i cs)).

(** The people behind the store of two requests: the PIN users alice (1)
    and dan (4), the CSR representatives carol (5) and erin (7), and the
    volunteer bob (6). *)
Definition alice : User.t :=
  User.mk 1 "alice" "Alice Tan" None "12 Home Road" User.ROLE_PIN "" "" "".
Definition bob : User.t :=
  User.mk 6 "bob" "Bob Lim" None "" User.ROLE_CV "Acme" "A-17" "bob@acme.example".
Definition carol : User.t :=
  User.mk 5 "carol" "Carol Ng" None "" User.ROLE_CSR "Acme" "A-02" "carol@acme.example".
Definition dan : User.t :=
  User.mk 4 "dan" "Dan Ho" None "3 Hill Street" User.ROLE_PIN "" "" "".
Definition erin : User.t :=
  User.mk 7 "erin" "Erin Yeo" None "" User.ROLE_CSR "Acme" "A-03" "erin@acme.example".

Definition populated_store : DB :=
  mkDB [alice; dan; carol; bob; erin]
       [PINPreference.mk 1 1 "English" ""]
       (requests two_request_store) (view_logs two_request_store)
       (shortlist_logs two_request_store) (matches two_request_store)
       (messages two_request_store) (claims two_request_store)
       (items two_request_store) (receipts two_request_store)
       (disputes two_request_store)
       [OTPToken.mk 1 1 "493027" (new_year_2025 + 30) false]
       1 2 1.
(** * Properties *)

(** ** Strings and decimal numerals *)

Section Strings.

Lemma startswith_app (p s : string) : startswith (p ++ s) p = true.
Proof.
  unfold startswith. induction p as [|c p IH]; simpl.
  - destruct s; reflexivity.
  - destruct (ascii_dec c c) as [_|ne]; [exact IH | congruence].
Qed.

Lemma drop_app (p s : string) : drop (String.length p) (p ++ s) = s.
Proof. induction p as [|c p IH]; simpl; auto. Qed.

Lemma length_app (s1 s2 : string) :
  String.length (s1 ++ s2) = (String.length s1 + String.length s2)%nat.
Proof. induction s1 as [|c s1 IH]; simpl; auto. Qed.

Lemma length_zeros (k : nat) : String.length (zeros k) = k.
Proof. induction k; simpl; auto. Qed.

Lemma app_inv_head (p s1 s2 : string) : p ++ s1 = p ++ s2 -> s1 = s2.
Proof. induction p as [|c p IH]; simpl; intros H; [exact H | injection H; auto]. Qed.

Lemma uint_of_string_zeros (k : nat) (s : string) :
  NilEmpty.uint_of_string (zeros k ++ s)
  = option_map (Nat.iter k D0) (NilEmpty.uint_of_string s).
Proof.
  induction k as [|k IH]; simpl.
  - destruct (NilEmpty.uint_of_string s); reflexivity.
  - rewrite IH. destruct (NilEmpty.uint_of_string s); reflexivity.
Qed.

Lemma of_uint_iter_D0 (k : nat) (d : uint) : Z.of_uint (Nat.iter k D0 d) = Z.of_uint d.
Proof. induction k as [|k IH]; simpl; auto. Qed.

Lemma string_of_uint_nonempty (d : uint) :
  d <> Nil -> NilEmpty.string_of_uint d <> "".
Proof. destruct d; simpl; congruence. Qed.

Lemma to_int_nonneg (n : Z) :
  0 <= n -> exists d, Z.to_int n = Pos d /\ d <> Nil /\ Z.of_uint d = n.
Proof.
  intros Hn. pose proof (DecimalZ.of_to n) as Hr.
  destruct n as [|p|p]; try lia; simpl in *.
  - exists zero. split; [reflexivity | split; [discriminate | reflexivity]].
  - exists (Pos.to_uint p). split; [reflexivity | split; [| exact Hr]].
    apply DecimalPos.Unsigned.to_uint_nonnil.
Qed.

End Strings.

Section Numerals.

Lemma int_format_05d (n : Z) : 0 <= n -> int (format_05d n) = Some n.
Proof.
  intros Hn. destruct (to_int_nonneg n Hn) as (d & Hd & Hnil & Hof).
  unfold format_05d, zfill. rewrite Hd.
  set (k := (5 - String.length (NilEmpty.string_of_uint d))%nat).
  assert (Hne : zeros k ++ NilEmpty.string_of_uint d <> "").
  { pose proof (string_of_uint_nonempty d Hnil) as Hs.
    destruct (zeros k); simpl; [exact Hs | discriminate]. }
  unfold int.
  destruct (zeros k ++ NilEmpty.string_of_uint d) eqn:E; [congruence |].
  rewrite <- E, uint_of_string_zeros, NilEmpty.usu. simpl.
  now rewrite of_uint_iter_D0, Hof.
Qed.

Lemma format_05d_inj (n m : Z) :
  0 <= n -> 0 <= m -> format_05d n = format_05d m -> n = m.
Proof.
  intros Hn Hm E. apply int_format_05d in Hn, Hm.
  rewrite E in Hn. congruence.
Qed.

Lemma all_digits_app (s1 s2 : string) :
  all_digits (s1 ++ s2) = all_digits s1 && all_digits s2.
Proof.
  induction s1 as [|c s1 IH]; simpl; [reflexivity |].
  now rewrite IH, andb_assoc.
Qed.

Lemma all_digits_zeros (k : nat) : all_digits (zeros k) = true.
Proof. induction k as [|k IH]; simpl; auto. Qed.

Lemma all_digits_string_of_uint (d : uint) :
  all_digits (NilEmpty.string_of_uint d) = true.
Proof. induction d; simpl; auto. Qed.

Lemma all_digits_format_05d (n : Z) : 0 <= n -> all_digits (format_05d n) = true.
Proof.
  intros Hn. destruct (to_int_nonneg n Hn) as (d & Hd & _ & _).
  unfold format_05d, zfill. rewrite Hd, all_digits_app, all_digits_zeros.
  apply all_digits_string_of_uint.
Qed.

Lemma length_format_05d_ge (n : Z) : 0 <= n -> (5 <= String.length (format_05d n))%nat.
Proof.
  intros Hn. destruct (to_int_nonneg n Hn) as (d & Hd & _ & _).
  unfold format_05d, zfill. rewrite Hd, length_app, length_zeros. lia.
Qed.

(** *** How many digits a numeral has *)

Lemma usize_nb_digits (d : uint) :
  DecimalPos.Unsigned.usize d = N.of_nat (nb_digits d).
Proof.
  induction d; simpl DecimalPos.Unsigned.usize; simpl nb_digits;
    rewrite ?IHd, ?Nat2N.inj_succ; reflexivity.
Qed.

Lemma of_lu_lt (d : uint) :
  (DecimalPos.Unsigned.of_lu d < 10 ^ DecimalPos.Unsigned.usize d)%N.
Proof.
  induction d as [|d IH|d IH|d IH|d IH|d IH|d IH|d IH|d IH|d IH|d IH];
    [ reflexivity | .. ];
    cbn [DecimalPos.Unsigned.of_lu DecimalPos.Unsigned.usize];
    rewrite N.pow_succ_r'; lia.
Qed.

Lemma to_uint_value (c : N) :
  DecimalPos.Unsigned.of_lu (rev (N.to_uint c)) = c.
Proof.
  rewrite <- DecimalPos.Unsigned.of_uint_alt. apply DecimalN.Unsigned.of_to.
Qed.

Lemma to_uint_upper (c : N) : (c < 10 ^ N.of_nat (nb_digits (N.to_uint c)))%N.
Proof.
  rewrite <- (to_uint_value c) at 1.
  rewrite <- (nb_digits_rev (N.to_uint c)), <- usize_nb_digits.
  apply of_lu_lt.
Qed.

Lemma nzhead_fixed_head (d : uint) :
  nzhead d = d -> d <> Nil -> exists l, nb_digits d = S (nb_digits l) /\
    (10 ^ DecimalPos.Unsigned.usize l <= DecimalPos.Unsigned.of_lu (rev d))%N.
Proof.
  intros Hnz Hnil.
  destruct d as [|l|l|l|l|l|l|l|l|l|l]; try congruence;
    try (exists l; split; [reflexivity |];
         unfold rev; simpl revapp; rewrite DecimalPos.Unsigned.of_lu_revapp;
         simpl DecimalPos.Unsigned.of_lu; nia).
  exfalso. simpl in Hnz.
  pose proof (nb_digits_nzhead l) as Hle. rewrite Hnz in Hle. simpl in Hle. lia.
Qed.

Lemma to_uint_lower (c : N) :
  c <> 0%N -> (10 ^ N.of_nat (nb_digits (N.to_uint c) - 1) <= c)%N.
Proof.
  intros Hc.
  pose proof (DecimalN.Unsigned.to_of (N.to_uint c)) as Hn.
  rewrite DecimalN.Unsigned.of_to in Hn.
  assert (Hz : N.to_uint c <> zero).
  { intros E. apply Hc. rewrite <- (DecimalN.Unsigned.of_to c), E. reflexivity. }
  assert (Hfix : nzhead (N.to_uint c) = N.to_uint c).
  { unfold unorm in Hn. destruct (nzhead (N.to_uint c)); congruence. }
  assert (Hnil : N.to_uint c <> Nil).
  { intros E. rewrite E in Hn. unfold unorm in Hn. simpl in Hn. congruence. }
  destruct (nzhead_fixed_head _ Hfix Hnil) as (l & Hlen & Hle).
  rewrite to_uint_value, usize_nb_digits in Hle.
  rewrite Hlen. simpl. rewrite Nat.sub_0_r. exact Hle.
Qed.

Lemma length_string_of_uint (d : uint) :
  String.length (NilEmpty.string_of_uint d) = nb_digits d.
Proof. induction d; simpl; auto. Qed.

Lemma to_int_to_uint (n : Z) : 0 <= n -> Z.to_int n = Pos (N.to_uint (Z.to_N n)).
Proof. destruct n; simpl; auto; lia. Qed.

(** Every count up to 99999 prints as exactly five digits. *)
Lemma five_digits_upto_99999 (n : Z) :
  0 <= n <= 99999 -> five_digits (format_05d n) = true.
Proof.
  intros Hn. unfold five_digits.
  rewrite all_digits_format_05d, andb_true_r by lia.
  apply Nat.eqb_eq.
  unfold format_05d, zfill. rewrite to_int_to_uint by lia.
  rewrite length_app, length_zeros, length_string_of_uint.
  set (c := Z.to_N n).
  destruct (N.eq_dec c 0) as [E|Hc]; [rewrite E; reflexivity |].
  pose proof (to_uint_lower c Hc) as Hlow.
  destruct (le_lt_dec (nb_digits (N.to_uint c)) 5) as [Hle|Hgt]; [lia |].
  exfalso.
  assert (Hp : (10 ^ 5 <= 10 ^ N.of_nat (nb_digits (N.to_uint c) - 1))%N)
    by (apply N.pow_le_mono_r; lia).
  assert (Hc5 : (c <= 99999)%N) by (unfold c; lia).
  change (10 ^ 5)%N with 100000%N in Hp. lia.
Qed.

End Numerals.

(** ** Creating requests *)

Section Creation.

Lemma has_pk_iff (k : nat) (r : ServiceRequest.t) :
  has_pk k r = true <-> pk r = Some k.
Proof.
  unfold has_pk. destruct (pk r) as [k'|]; [| split; discriminate].
  rewrite Nat.eqb_eq. split; congruence.
Qed.

Lemma request_id_taken_unsaved (self : ServiceRequest.t) (db : DB) :
  pk self = None ->
  request_id_taken self (requests db) = id_stored (request_id self) db.
Proof.
  intros Hpk. unfold request_id_taken, id_stored, stored_ids. rewrite Hpk.
  cbn [negb].
  induction (requests db) as [|r rows IH]; [reflexivity |].
  cbn [existsb map]. rewrite IH, andb_true_r. f_equal. apply String.eqb_sym.
Qed.

(** What a creation does, in one equation. *)
Lemma create_eq (c : creation) (db : DB) :
  create c db =
  if id_stored (generated_id (called_at c) db) db
  then (db, Raise (IntegrityError "request_id"))
  else (set_requests db (requests db ++ [new_row c db]) (S (seq_requests db)),
        Return (new_row c db)).
Proof.
  unfold create, objects_create, save, init. cbn [request_id String.eqb].
  fold (id_prefix (year (called_at c))).
  fold (same_year (year (called_at c)) db).
  fold (same_year_count (year (called_at c)) db).
  fold (generated_id (called_at c) db).
  unfold Model_save, insert, set_request_id, set_date_created, set_pk.
  cbn [pk request_id pin service_type appointment_date pickup_location
       service_location description status date_created views shortlists].
  rewrite request_id_taken_unsaved by reflexivity. cbn [request_id].
  destruct (id_stored (generated_id (called_at c) db) db); [reflexivity |].
  unfold new_row. rewrite Nat.max_r by lia. reflexivity.
Qed.

Lemma id_stored_true (rid : string) (db : DB) :
  id_stored rid db = true <-> exists r, In r (requests db) /\ request_id r = rid.
Proof.
  unfold id_stored, stored_ids. rewrite existsb_exists. split.
  - intros (x & Hin & Heq). apply in_map_iff in Hin as (r & Hr & Hin).
    exists r. split; [exact Hin |]. apply String.eqb_eq in Heq. congruence.
  - intros (r & Hin & Heq). exists rid. split; [| apply String.eqb_refl].
    apply in_map_iff. eauto.
Qed.

Lemma numbered_count (y : Z) (n : nat) (db : DB) :
  numbered y n db -> same_year_count y db = Z.of_nat n.
Proof.
  unfold numbered, same_year_count. intros H.
  apply (f_equal (@List.length string)) in H.
  rewrite !length_map, length_seq in H. now rewrite H.
Qed.

Lemma numbered_fresh (y : Z) (n : nat) (db : DB) :
  numbered y n db ->
  id_stored (id_prefix y ++ format_05d (Z.of_nat n + 1)) db = false.
Proof.
  intros Hnum. apply not_true_is_false. intros Hst.
  apply id_stored_true in Hst as (r & Hin & Heq).
  assert (Hsame : In r (same_year y db)).
  { apply filter_In. split; [exact Hin |]. rewrite Heq. apply startswith_app. }
  apply (in_map request_id) in Hsame. rewrite Hnum, Heq in Hsame.
  apply in_map_iff in Hsame as (i & Hi & Hrange). apply in_seq in Hrange.
  apply app_inv_head, format_05d_inj in Hi; lia.
Qed.

Lemma same_year_snoc (y : Z) (db : DB) (r : ServiceRequest.t) (k : nat) :
  startswith (request_id r) (id_prefix y) = true ->
  same_year y (set_requests db (requests db ++ [r]) k) = (same_year y db ++ [r])%list.
Proof.
  intros H. unfold same_year. cbn [requests set_requests].
  rewrite filter_app. cbn [filter]. now rewrite H.
Qed.

Lemma create_numbered (y : Z) (n : nat) (c : creation) (db : DB) :
  year (called_at c) = y -> numbered y n db ->
  create c db = (set_requests db (requests db ++ [new_row c db]) (S (seq_requests db)),
                 Return (new_row c db))
  /\ request_id (new_row c db) = id_prefix y ++ format_05d (Z.of_nat n + 1)
  /\ numbered y (S n) (set_requests db (requests db ++ [new_row c db])
                                    (S (seq_requests db))).
Proof.
  intros Hy Hnum.
  assert (Hid : generated_id (called_at c) db
                = id_prefix y ++ format_05d (Z.of_nat n + 1)).
  { unfold generated_id. now rewrite Hy, (numbered_count y n db Hnum). }
  split; [| split].
  - rewrite create_eq, Hid, (numbered_fresh y n db Hnum). reflexivity.
  - exact Hid.
  - unfold numbered. rewrite same_year_snoc.
    + rewrite map_app, Hnum, seq_S, map_app. cbn [map request_id new_row].
      rewrite Hid. replace (Z.of_nat n + 1) with (Z.of_nat (1 + n)) by lia.
      reflexivity.
    + cbn [request_id new_row]. rewrite Hid. apply startswith_app.
Qed.

(** Creations within one year over a store numbered [1..n]: all succeed,
    the identifiers continue the numbering, and the store stays numbered. *)
Lemma create_all_numbered (y : Z) (cs : list creation) :
  forall (n : nat) (db : DB),
    Forall (fun c => year (called_at c) = y) cs -> numbered y n db ->
    exists objs,
      snd (create_all cs db) = map Return objs
      /\ map request_id objs
         = map (fun i => id_prefix y ++ format_05d (Z.of_nat i))
               (seq (S n) (List.length cs))
      /\ numbered y (n + List.length cs) (fst (create_all cs db)).
Proof.
  induction cs as [|c cs IH]; intros n db Hall Hnum.
  - exists []. cbn. rewrite Nat.add_0_r. auto.
  - inversion Hall as [|? ? Hy Hrest]; subst.
    destruct (create_numbered _ n c db eq_refl Hnum) as (Hc & Hid & Hnum').
    destruct (IH (S n) _ Hrest Hnum') as (objs & Hout & Hids & Hfin).
    exists (new_row c db :: objs). cbn [create_all]. rewrite Hc.
    destruct (create_all cs _) as [db2 os] eqn:E. cbn [fst snd] in *.
    split; [| split].
    + now rewrite Hout.
    + cbn [map List.length seq]. rewrite Hid, Hids.
      replace (Z.of_nat n + 1) with (Z.of_nat (S n)) by lia. reflexivity.
    + replace (n + List.length (c :: cs))%nat with (S n + List.length cs)%nat
        by (cbn [List.length]; lia).
      exact Hfin.
Qed.

End Creation.

(** ** Identifiers of one year's creations (C1) *)

Section SameYear.

Lemma create_all_length (cs : list creation) :
  forall db, List.length (snd (create_all cs db)) = List.length cs.
Proof.
  induction cs as [|c cs IH]; intros db; [reflexivity |].
  cbn [create_all]. destruct (create c db) as [db1 o].
  specialize (IH db1). destruct (create_all cs db1) as [db2 os].
  cbn [snd List.length] in *. now rewrite IH.
Qed.

Lemma numbered_0 (y : Z) (db : DB) : same_year y db = [] -> numbered y 0 db.
Proof. unfold numbered. intros ->. reflexivity. Qed.

Lemma suffix_generated (y n : Z) : suffix y (id_prefix y ++ format_05d n) = format_05d n.
Proof. unfold suffix. apply drop_app. Qed.

Lemma id_numbering_injective (y : Z) :
  Injective (fun i : nat => id_prefix y ++ format_05d (Z.of_nat i)).
Proof.
  intros i j E. apply app_inv_head, format_05d_inj in E; lia.
Qed.

(** The [i]-th identifier of a list numbered from 1. *)
Lemma nth_numbered (y : Z) (objs : list ServiceRequest.t) (len i : nat)
    (obj : ServiceRequest.t) :
  map request_id objs
  = map (fun i => id_prefix y ++ format_05d (Z.of_nat i)) (seq 1 len) ->
  nth_error objs i = Some obj ->
  (i < len)%nat /\ request_id obj = id_prefix y ++ format_05d (Z.of_nat i + 1).
Proof.
  intros Hids Hnth.
  apply (map_nth_error request_id) in Hnth. rewrite Hids in Hnth.
  rewrite nth_error_map, nth_error_seq in Hnth.
  destruct (Nat.ltb_spec i len) as [Hlt|Hge]; [| discriminate].
  split; [exact Hlt |]. cbn [option_map] in Hnth.
  injection Hnth as <-.
  replace (Z.of_nat i + 1) with (Z.of_nat (1 + i)) by lia. reflexivity.
Qed.

Lemma Forall_firstn {A} (P : A -> Prop) (l : list A) (i : nat) :
  Forall P l -> Forall P (firstn i l).
Proof.
  intros H. revert i.
  induction H as [|x l Hx Hl IH]; intros [|i]; cbn [firstn]; auto.
Qed.

End SameYear.

(** C1 (as amended).  Creations made one after the other within the calendar
    year [y], over a store that holds no identifier of that year yet, all
    succeed.  When the [i]-th of them (counting from 0) runs, the store
    holds [i] identifiers of the year, and its identifier is [RQ-y-]
    followed by [i + 1] in decimal digits, zero-padded to at least five
    digits: exactly five digits as long as [i + 1 <= 99999].  The numeric
    suffixes are [1, 2, 3, ...], so they increase strictly, and the
    identifiers are pairwise distinct. *)
Theorem creations_in_one_year_are_numbered :
  forall (y : Z) (cs : list creation) (db : DB),
    Forall (fun c => year (called_at c) = y) cs ->
    same_year y db = [] ->
    exists objs : list ServiceRequest.t,
      snd (create_all cs db) = map Return objs
      /\ List.length objs = List.length cs
      /\ (forall i obj, nth_error objs i = Some obj ->
            same_year_count y (fst (create_all (firstn i cs) db)) = Z.of_nat i
            /\ request_id obj = id_prefix y ++ format_05d (Z.of_nat i + 1)
            /\ all_digits (suffix y (request_id obj)) = true
            /\ (5 <= String.length (suffix y (request_id obj)))%nat
            /\ (Z.of_nat i + 1 <= 99999 ->
                five_digits (suffix y (request_id obj)) = true)
            /\ numeric_suffix y (request_id obj) = Some (Z.of_nat i + 1))
      /\ (forall i j a b,
            (i < j)%nat -> nth_error objs i = Some a -> nth_error objs j = Some b ->
            exists na nb,
              numeric_suffix y (request_id a) = Some na
              /\ numeric_suffix y (request_id b) = Some nb
              /\ na < nb)
      /\ NoDup (map request_id objs).
Proof.
  intros y cs db Hall Hempty.
  pose proof (numbered_0 y db Hempty) as Hnum.
  destruct (create_all_numbered y cs 0 db Hall Hnum) as (objs & Hout & Hids & _).
  assert (Hlen : List.length objs = List.length cs).
  { rewrite <- (create_all_length cs db), Hout. now rewrite length_map. }
  assert (Hsfx : forall i obj, nth_error objs i = Some obj ->
            numeric_suffix y (request_id obj) = Some (Z.of_nat i + 1)).
  { intros i obj Hnth.
    destruct (nth_numbered y objs _ i obj Hids Hnth) as (_ & ->).
    unfold numeric_suffix. rewrite suffix_generated. apply int_format_05d. lia. }
  exists objs. split; [exact Hout |]. split; [exact Hlen |].
  split; [| split].
  - intros i obj Hnth.
    destruct (nth_numbered y objs _ i obj Hids Hnth) as (Hi & Hid).
    split.
    { destruct (create_all_numbered y (firstn i cs) 0 db
                  (Forall_firstn _ cs i Hall) Hnum) as (_ & _ & _ & Hn).
      rewrite length_firstn, Nat.min_l in Hn by lia.
      now apply numbered_count in Hn. }
    split; [exact Hid |].
    rewrite Hid, suffix_generated.
    split; [apply all_digits_format_05d; lia |].
    split; [apply length_format_05d_ge; lia |].
    split; [intros Hb; apply five_digits_upto_99999; lia |].
    rewrite <- Hid. now apply Hsfx.
  - intros i j a b Hij Ha Hb.
    exists (Z.of_nat i + 1), (Z.of_nat j + 1).
    split; [now apply Hsfx |]. split; [now apply Hsfx | lia].
  - rewrite Hids. apply Injective_map_NoDup.
    + apply id_numbering_injective.
    + apply seq_NoDup.
Qed.

(** Witness: two creations at the start of 2025 over the empty store yield
    [RQ-2025-00001], then [RQ-2025-00002]. *)
Lemma creations_in_one_year_are_numbered_witness :
  snd (create_all [call_2025; call_2025] empty_db)
  = [Return first_2025; Return second_2025]
  /\ request_id first_2025 = "RQ-2025-00001"
  /\ request_id second_2025 = "RQ-2025-00002"
  /\ exists objs : list ServiceRequest.t,
    snd (create_all [call_2025; call_2025] empty_db) = map Return objs
    /\ List.length objs = 2%nat
    /\ (forall i obj, nth_error objs i = Some obj ->
          same_year_count 2025 (fst (create_all (firstn i [call_2025; call_2025]) empty_db))
          = Z.of_nat i
          /\ request_id obj = id_prefix 2025 ++ format_05d (Z.of_nat i + 1)
          /\ all_digits (suffix 2025 (request_id obj)) = true
          /\ (5 <= String.length (suffix 2025 (request_id obj)))%nat
          /\ (Z.of_nat i + 1 <= 99999 ->
              five_digits (suffix 2025 (request_id obj)) = true)
          /\ numeric_suffix 2025 (request_id obj) = Some (Z.of_nat i + 1))
    /\ (forall i j a b,
          (i < j)%nat -> nth_error objs i = Some a -> nth_error objs j = Some b ->
          exists na nb,
            numeric_suffix 2025 (request_id a) = Some na
            /\ numeric_suffix 2025 (request_id b) = Some nb
            /\ na < nb)
    /\ NoDup (map request_id objs).
Proof.
  split; [reflexivity |]. split; [reflexivity |]. split; [reflexivity |].
  apply (creations_in_one_year_are_numbered 2025 [call_2025; call_2025] empty_db).
  - repeat constructor.
  - reflexivity.
Defined.

(** C1, counterexample to the claim as stated: the 100000th creation of 2025
    over the empty store yields [RQ-2025-100000], whose suffix has six
    digits, not five. *)
Lemma creation_100000_has_six_digit_suffix :
  exists obj : ServiceRequest.t,
    nth_error (snd (create_all (repeat call_2025 (N.to_nat 100000)) empty_db))
              (N.to_nat 99999)
    = Some (Return obj)
    /\ request_id obj = "RQ-2025-100000"
    /\ suffix 2025 (request_id obj) = "100000"
    /\ five_digits (suffix 2025 (request_id obj)) = false.
Proof.
  set (cs := repeat call_2025 (N.to_nat 100000)).
  assert (Hall : Forall (fun c => year (called_at c) = 2025) cs).
  { apply Forall_forall. intros c Hc. apply repeat_spec in Hc. now subst c. }
  destruct (create_all_numbered 2025 cs 0 empty_db Hall
              (numbered_0 2025 empty_db eq_refl))
    as (objs & Hout & Hids & _).
  assert (Hlen : List.length objs = N.to_nat 100000).
  { apply (f_equal (@List.length string)) in Hids.
    rewrite !length_map, length_seq in Hids. unfold cs in Hids.
    now rewrite repeat_length in Hids. }
  destruct (nth_error objs (N.to_nat 99999)) as [obj|] eqn:Hnth.
  - exists obj.
    destruct (nth_numbered 2025 objs _ _ obj Hids Hnth) as (_ & Hid).
    rewrite N_nat_Z in Hid. change (Z.of_N 99999 + 1) with 100000 in Hid.
    assert (Hstr : request_id obj = "RQ-2025-100000") by (rewrite Hid; reflexivity).
    split; [| split; [exact Hstr | rewrite Hstr; split; reflexivity]].
    rewrite Hout. now apply map_nth_error.
  - exfalso. apply nth_error_None in Hnth. lia.
Qed.

(** ** OTP expiry (C3) *)

(** C3.  [is_expired] is true exactly when the current time is strictly
    later than [created_at] plus ten minutes (600 000 000 microseconds): it
    is false at creation time, false 9 minutes 59 seconds later, false at
    exactly ten minutes, and true 10 minutes 1 second later. *)
Theorem is_expired_iff_more_than_ten_minutes :
  forall (now : datetime) (t : OTPToken.t),
    (is_expired now t = true <-> now > OTPToken.created_at t + 600000000)
    /\ is_expired (OTPToken.created_at t) t = false
    /\ is_expired (OTPToken.created_at t + (9 * 60 + 59) * 1000000) t = false
    /\ is_expired (OTPToken.created_at t + 10 * 60 * 1000000) t = false
    /\ is_expired (OTPToken.created_at t + (10 * 60 + 1) * 1000000) t = true.
Proof.
  intros now t. unfold is_expired, timedelta.
  repeat split; try (apply Z.gtb_gt; lia);
    try (intros H; apply Z.gtb_gt in H; lia);
    rewrite Z.gtb_ltb; apply Z.ltb_ge; lia.
Qed.

(** ** One row per owner (C5, C6) *)

(** C5.  When the PIN user [u] already has a PINPreference row, creating
    another one for [u] raises the uniqueness error on [user_id] and leaves
    the database exactly as it was. *)
Theorem second_pin_preference_is_refused :
  forall (db : DB) (u : nat) (language gender : string),
    (exists p, In p (pin_prefs db) /\ PINPreference.user p = u) ->
    PINPreference_objects_create u language gender db
    = (db, Raise (IntegrityError "user_id")).
Proof.
  intros db u language gender (p & Hin & Hu). unfold PINPreference_objects_create.
  replace (existsb _ (pin_prefs db)) with true; [reflexivity |].
  symmetry. apply existsb_exists. exists p. split; [exact Hin |].
  now apply Nat.eqb_eq.
Qed.

(** Witness: the first preference of user 1 is stored, the second refused. *)
Lemma second_pin_preference_is_refused_witness :
  let db := fst (PINPreference_objects_create 1 "English" "" empty_db) in
  pin_prefs db = [PINPreference.mk 1 1 "English" ""]
  /\ PINPreference_objects_create 1 "Mandarin" "Female" db
     = (db, Raise (IntegrityError "user_id")).
Proof.
  split; [reflexivity |].
  apply second_pin_preference_is_refused.
  exists (PINPreference.mk 1 1 "English" ""). split; [left |]; reflexivity.
Defined.

(** C6.  When the request with key [r] already has a Match row, creating
    another Match for it raises the uniqueness error on [request_id] (the
    [OneToOneField] column) and leaves the database exactly as it was. *)
Theorem second_match_is_refused :
  forall (db : DB) (now : datetime) (r cv : nat) (offered_at : option datetime)
         (accepted : option bool) (accepted_at : option datetime),
    (exists m, In m (matches db) /\ Match.request m = r) ->
    Match_objects_create now r cv offered_at accepted accepted_at db
    = (db, Raise (IntegrityError "request_id")).
Proof.
  intros db now r cv offered_at accepted accepted_at (m & Hin & Hr).
  unfold Match_objects_create.
  replace (existsb _ (matches db)) with true; [reflexivity |].
  symmetry. apply existsb_exists. exists m. split; [exact Hin |].
  now apply Nat.eqb_eq.
Qed.

(** Witness: request 1 is offered to volunteer 2, then to volunteer 3. *)
Lemma second_match_is_refused_witness :
  let db := fst (Match_objects_create new_year_2025 1 2 None None None empty_db) in
  matches db = [Match.mk 1 1 2 new_year_2025 None None]
  /\ Match_objects_create (new_year_2025 + 1) 1 3 None None None db
     = (db, Raise (IntegrityError "request_id")).
Proof.
  split; [reflexivity |].
  apply second_match_is_refused.
  exists (Match.mk 1 1 2 new_year_2025 None None). split; [left |]; reflexivity.
Defined.

(** ** The identifier once set (C8) *)

(** C8.  A [save] of a request whose [request_id] is not empty leaves the
    instance's [request_id] as it was, whether the call succeeds or raises;
    and when it succeeds, the instance, with that same [request_id], is a
    row of the table. *)
Theorem save_keeps_request_id :
  forall (now : datetime) (force_insert : bool) (self : ServiceRequest.t) (db : DB),
    request_id self <> "" ->
    let '(db', self', result) := save now force_insert self db in
    request_id self' = request_id self
    /\ (result = Return tt -> In self' (requests db')).
Proof.
  intros now force_insert self db Hne.
  apply String.eqb_neq in Hne. unfold save. rewrite Hne.
  assert (Hins : let '(db', self', result) := insert now self db in
            request_id self' = request_id self
            /\ (result = Return tt -> In self' (requests db'))).
  { unfold insert.
    destruct (match pk (set_date_created self now) with
              | Some k0 => existsb (has_pk k0) (requests db)
              | None => false end);
      [split; [reflexivity | discriminate] |].
    destruct (request_id_taken (set_date_created self now) (requests db));
      [split; [reflexivity | discriminate] |].
    split; [reflexivity |]. intros _. cbn [requests set_requests].
    apply in_or_app. right. left. reflexivity. }
  unfold Model_save. destruct (pk self) as [k|] eqn:Hk; [| exact Hins].
  destruct (negb force_insert && existsb (has_pk k) (requests db)) eqn:Hupd;
    [| exact Hins].
  unfold update. destruct (request_id_taken self (requests db));
    [split; [reflexivity | discriminate] |].
  split; [reflexivity |]. intros _. cbn [requests set_requests].
  apply andb_true_iff in Hupd as [_ Hex].
  apply existsb_exists in Hex as (row & Hin & Hrow).
  apply in_map_iff. exists row. rewrite Hrow. auto.
Qed.

(** Witness: the first request of 2025, saved again a second later. *)
Lemma save_keeps_request_id_witness :
  let db := fst (create call_2025 empty_db) in
  let r := new_row call_2025 empty_db in
  request_id r = "RQ-2025-00001"
  /\ let '(db', r', result) := save (new_year_2025 + 1000000) false r db in
     request_id r' = request_id r
     /\ (result = Return tt -> In r' (requests db')).
Proof.
  split; [reflexivity |].
  apply (save_keeps_request_id (new_year_2025 + 1000000) false
           (new_row call_2025 empty_db) (fst (create call_2025 empty_db))).
  discriminate.
Defined.

(** ** Creation after a deletion (C9) *)

Section AfterDelete.

Lemma filter_filter_nil {A} (p q : A -> bool) (l : list A) :
  filter p l = [] -> filter p (filter q l) = [].
Proof.
  induction l as [|x l IH]; cbn [filter]; [reflexivity |].
  destruct (p x) eqn:Hp; [discriminate |]. intros H.
  destruct (q x); cbn [filter]; rewrite ?Hp; auto.
Qed.

Lemma requests_after_delete (k : nat) (r : ServiceRequest.t) (db : DB) :
  pk r = Some k ->
  requests (fst (delete r db)) = filter (fun q => negb (has_pk k q)) (requests db).
Proof. intros Hk. unfold delete. rewrite Hk. reflexivity. Qed.

End AfterDelete.

(** C9.  Create two requests in one calendar year over a store that holds
    no identifier of that year, delete the first, and create a third in the
    same year: the count of the year's identifiers is 1 again, so [save]
    generates the suffix [00002] a second time, the identifier of the
    request that is still stored, and the creation raises the uniqueness
    error on [request_id], leaving the store as it was.  No concurrency is
    involved. *)
Theorem third_creation_collides_after_delete :
  forall (c1 c2 c3 : creation) (db : DB),
    year (called_at c1) = year (called_at c3) ->
    year (called_at c2) = year (called_at c3) ->
    same_year (year (called_at c3)) db = [] ->
    exists (r1 r2 : ServiceRequest.t) (db1 db2 : DB),
      create c1 db = (db1, Return r1)
      /\ create c2 db1 = (db2, Return r2)
      /\ request_id r2 = id_prefix (year (called_at c3)) ++ "00002"
      /\ In r2 (requests (fst (delete r1 db2)))
      /\ same_year_count (year (called_at c3)) (fst (delete r1 db2)) = 1
      /\ generated_id (called_at c3) (fst (delete r1 db2)) = request_id r2
      /\ create c3 (fst (delete r1 db2))
         = (fst (delete r1 db2), Raise (IntegrityError "request_id")).
Proof.
  intros c1 c2 c3 db Hy1 Hy2 Hempty.
  set (y := year (called_at c3)) in *.
  pose proof (numbered_0 y db Hempty) as Hn0.
  destruct (create_numbered y 0 c1 db Hy1 Hn0) as (Hc1 & Hid1 & Hn1).
  set (r1 := new_row c1 db) in *.
  set (db1 := set_requests db (requests db ++ [r1]) (S (seq_requests db))) in *.
  destruct (create_numbered y 1 c2 db1 Hy2 Hn1) as (Hc2 & Hid2 & _).
  set (r2 := new_row c2 db1) in *.
  set (db2 := set_requests db1 (requests db1 ++ [r2]) (S (seq_requests db1))) in *.
  exists r1, r2, db1, db2.
  assert (Hreq : requests (fst (delete r1 db2))
                 = (filter (fun q => negb (has_pk (S (seq_requests db)) q)) (requests db)
                    ++ [r2])%list).
  { rewrite (requests_after_delete (S (seq_requests db))) by reflexivity.
    assert (H1 : has_pk (S (seq_requests db)) r1 = true)
      by (unfold has_pk, r1, new_row; cbn [pk]; apply Nat.eqb_refl).
    assert (H2 : has_pk (S (seq_requests db)) r2 = false).
    { unfold has_pk, r2, new_row, db1. cbn [pk seq_requests set_requests].
      apply Nat.eqb_neq. lia. }
    unfold db2, db1. cbn [requests set_requests]. rewrite !filter_app.
    cbn [filter]. rewrite H1, H2. cbn [negb]. now rewrite List.app_nil_r. }
  assert (Hsame : same_year y (fst (delete r1 db2)) = [r2]).
  { unfold same_year. rewrite Hreq, filter_app.
    rewrite filter_filter_nil by exact Hempty. cbn [filter app].
    rewrite Hid2. now rewrite startswith_app. }
  assert (Hin : In r2 (requests (fst (delete r1 db2)))).
  { rewrite Hreq. apply in_or_app. right. left. reflexivity. }
  assert (Hgen : generated_id (called_at c3) (fst (delete r1 db2)) = request_id r2).
  { unfold generated_id, same_year_count. fold y. rewrite Hsame, Hid2. reflexivity. }
  split; [exact Hc1 |]. split; [exact Hc2 |].
  split; [rewrite Hid2; reflexivity |].
  split; [exact Hin |].
  split; [unfold same_year_count; now rewrite Hsame |].
  split; [exact Hgen |].
  rewrite create_eq, Hgen.
  replace (id_stored (request_id r2) (fst (delete r1 db2))) with true; [reflexivity |].
  symmetry. apply id_stored_true. eauto.
Qed.

(** Witness: three requests filed at the start of 2025 over the empty
    store, the first deleted before the third is filed. *)
Lemma third_creation_collides_after_delete_witness :
  exists (r1 r2 : ServiceRequest.t) (db1 db2 : DB),
    create call_2025 empty_db = (db1, Return r1)
    /\ create call_2025 db1 = (db2, Return r2)
    /\ request_id r2 = id_prefix (year (called_at call_2025)) ++ "00002"
    /\ In r2 (requests (fst (delete r1 db2)))
    /\ same_year_count (year (called_at call_2025)) (fst (delete r1 db2)) = 1
    /\ generated_id (called_at call_2025) (fst (delete r1 db2)) = request_id r2
    /\ create call_2025 (fst (delete r1 db2))
       = (fst (delete r1 db2), Raise (IntegrityError "request_id")).
Proof.
  apply (third_creation_collides_after_delete call_2025 call_2025 call_2025 empty_db);
    reflexivity.
Defined.

(** ** Duplicating a request (C2, C10) *)

Section Duplicate.

Lemma duplicate_is_create (now : datetime) (r : ServiceRequest.t) (d : datetime) (db : DB) :
  duplicate now r d db
  = create (mkCreation now (pin r) (service_type r) d (pickup_location r)
                       (service_location r) (description r)) db.
Proof. reflexivity. Qed.

Lemma no_row_of_unissued_key {A} (fk : A -> nat) (n : nat) (l : list A) :
  forallb (fun x => (fk x <=? n)%nat) l = true ->
  filter (fun x => Nat.eqb (fk x) (S n)) l = [].
Proof.
  induction l as [|x l IH]; cbn [forallb filter]; [reflexivity |].
  intros H. apply andb_true_iff in H as [Hx Hl]. apply Nat.leb_le in Hx.
  replace (fk x =? S n)%nat with false by (symmetry; apply Nat.eqb_neq; lia).
  auto.
Qed.

End Duplicate.

(** X19.  What [duplicate] does on every input.  For a stored request [r]
    and a date [d], [duplicate(r, d)] does one of two things.  When the identifier that
    [save] generates is already stored, it raises the uniqueness error on
    [request_id] and the database is unchanged.  Otherwise it returns a new
    request whose [request_id] is that generated identifier and differs from
    [r]'s, whose pin, service_type, pickup_location, service_location and
    description are [r]'s, whose appointment_date is [d], whose status is
    PENDING and whose creation timestamp is the time of the call; the new
    row is appended under the next key, and [r] and every other row of every
    table are as they were. *)
Theorem duplicate_copies_or_raises :
  forall (now : datetime) (r : ServiceRequest.t) (d : datetime) (db : DB),
    In r (requests db) ->
    match duplicate now r d db with
    | (db', Return copy) =>
        id_stored (generated_id now db) db = false
        /\ request_id copy = generated_id now db
        /\ request_id copy <> request_id r
        /\ pin copy = pin r
        /\ service_type copy = service_type r
        /\ pickup_location copy = pickup_location r
        /\ service_location copy = service_location r
        /\ description copy = description r
        /\ appointment_date copy = d
        /\ status copy = STATUS_PENDING
        /\ date_created copy = Some now
        /\ pk copy = Some (S (seq_requests db))
        /\ db' = set_requests db (requests db ++ [copy]) (S (seq_requests db))
        /\ In r (requests db')
    | (db', Raise e) =>
        id_stored (generated_id now db) db = true
        /\ e = IntegrityError "request_id"
        /\ db' = db
    end.
Proof.
  intros now r d db Hin. rewrite duplicate_is_create, create_eq.
  cbn [called_at].
  destruct (id_stored (generated_id now db) db) eqn:Hst; [auto |].
  unfold new_row. cbn [called_at c_pin c_service_type c_appointment_date
    c_pickup_location c_service_location c_description pk request_id pin
    service_type appointment_date pickup_location service_location description
    status date_created requests set_requests].
  repeat (split; [reflexivity |]).
  split.
  - intros E. apply not_true_iff_false in Hst. apply Hst.
    apply id_stored_true. exists r. split; [exact Hin | now symmetry].
  - repeat (split; [reflexivity |]). apply in_or_app. now left.
Qed.

(** Witness: the only stored request of 2025 is duplicated a second after it
    was filed. *)
Lemma duplicate_copies_or_raises_witness :
  In first_2025 (requests store_one)
  /\ match duplicate (new_year_2025 + 1000000) first_2025
                     (new_year_2025 + 172800000000) store_one with
     | (db', Return copy) =>
         id_stored (generated_id (new_year_2025 + 1000000) store_one) store_one = false
         /\ request_id copy = generated_id (new_year_2025 + 1000000) store_one
         /\ request_id copy <> request_id first_2025
         /\ pin copy = pin first_2025
         /\ service_type copy = service_type first_2025
         /\ pickup_location copy = pickup_location first_2025
         /\ service_location copy = service_location first_2025
         /\ description copy = description first_2025
         /\ appointment_date copy = new_year_2025 + 172800000000
         /\ status copy = STATUS_PENDING
         /\ date_created copy = Some (new_year_2025 + 1000000)
         /\ pk copy = Some (S (seq_requests store_one))
         /\ db' = set_requests store_one (requests store_one ++ [copy])
                               (S (seq_requests store_one))
         /\ In first_2025 (requests db')
     | (db', Raise e) =>
         id_stored (generated_id (new_year_2025 + 1000000) store_one) store_one = true
         /\ e = IntegrityError "request_id"
         /\ db' = store_one
     end.
Proof.
  split; [left; reflexivity |].
  apply (duplicate_copies_or_raises (new_year_2025 + 1000000) first_2025
           (new_year_2025 + 172800000000) store_one).
  left; reflexivity.
Defined.

(** C2, where the code fails the claim: after two creations in 2025 and the
    deletion of the first, the second request is stored, and duplicating it
    returns no request.  The count of the year is 1 again, so [save]
    generates [RQ-2025-00002], the identifier of the very request being
    duplicated, and the call raises the uniqueness error on [request_id]
    instead of creating the copy with a new identifier. *)
Lemma duplicate_raises_after_delete :
  requests store_after_delete = [second_2025]
  /\ request_id second_2025 = "RQ-2025-00002"
  /\ generated_id (new_year_2025 + 1000000) store_after_delete = "RQ-2025-00002"
  /\ duplicate (new_year_2025 + 1000000) second_2025
               (new_year_2025 + 172800000000) store_after_delete
     = (store_after_delete, Raise (IntegrityError "request_id")).
Proof. repeat split; reflexivity. Qed.

(** C10.  Whatever the counters and child rows of [r], a copy that
    [duplicate(r, d)] returns has [views = 0] and [shortlists = 0], and no
    RequestView, Shortlist, Match, Message, FinancialClaim or Dispute row is
    associated with it; the child tables (and with them the items and
    receipts) are exactly what they were, so no row of [r] was copied or
    moved.  The foreign keys stored are assumed to be keys the sequence has
    issued, as the engine guarantees. *)
Theorem duplicate_starts_without_history :
  forall (now : datetime) (r : ServiceRequest.t) (d : datetime) (db db' : DB)
         (copy : ServiceRequest.t),
    request_fks_issued db = true ->
    duplicate now r d db = (db', Return copy) ->
    views copy = 0%nat /\ shortlists copy = 0%nat
    /\ (exists k, pk copy = Some k
        /\ view_logs_of k db' = [] /\ shortlist_logs_of k db' = []
        /\ match_of k db' = [] /\ messages_of k db' = []
        /\ claims_of k db' = [] /\ disputes_of k db' = [])
    /\ view_logs db' = view_logs db /\ shortlist_logs db' = shortlist_logs db
    /\ matches db' = matches db /\ messages db' = messages db
    /\ claims db' = claims db /\ items db' = items db
    /\ receipts db' = receipts db /\ disputes db' = disputes db.
Proof.
  intros now r d db db' copy Hfk Hdup.
  rewrite duplicate_is_create, create_eq in Hdup.
  destruct (id_stored _ db); [discriminate |].
  injection Hdup as <- <-.
  unfold request_fks_issued in Hfk.
  repeat (apply andb_true_iff in Hfk as [Hfk ?]).
  split; [reflexivity |]. split; [reflexivity |]. split.
  - exists (S (seq_requests db)). split; [reflexivity |].
    unfold view_logs_of, shortlist_logs_of, match_of, messages_of, claims_of,
      disputes_of.
    cbn [view_logs shortlist_logs matches messages claims disputes set_requests].
    repeat split; now apply no_row_of_unissued_key.
  - repeat split.
Qed.

(** Witness: the busy request of 2025 (3 views, 2 shortlists, a match, a
    message, a claim with an item and a receipt, a dispute) is duplicated;
    the copy is returned under key 2 with nothing attached. *)
Lemma duplicate_starts_without_history_witness :
  views busy_request = 3%nat
  /\ List.length (view_logs_of 1 busy_store) = 3%nat
  /\ exists (db' : DB) (copy : ServiceRequest.t),
       duplicate (new_year_2025 + 1000000) busy_request
                 (new_year_2025 + 172800000000) busy_store = (db', Return copy)
       /\ request_id copy = "RQ-2025-00002"
       /\ views copy = 0%nat /\ shortlists copy = 0%nat
       /\ (exists k, pk copy = Some k
           /\ view_logs_of k db' = [] /\ shortlist_logs_of k db' = []
           /\ match_of k db' = [] /\ messages_of k db' = []
           /\ claims_of k db' = [] /\ disputes_of k db' = [])
       /\ view_logs db' = view_logs busy_store
       /\ shortlist_logs db' = shortlist_logs busy_store
       /\ matches db' = matches busy_store /\ messages db' = messages busy_store
       /\ claims db' = claims busy_store /\ items db' = items busy_store
       /\ receipts db' = receipts busy_store /\ disputes db' = disputes busy_store.
Proof.
  split; [reflexivity |]. split; [reflexivity |].
  exists (fst (duplicate (new_year_2025 + 1000000) busy_request
                 (new_year_2025 + 172800000000) busy_store)).
  exists (new_row (mkCreation (new_year_2025 + 1000000) 1 "DIALYSIS_ESCORT"
                     (new_year_2025 + 172800000000) "12 Home Road" "City Clinic"
                     "weekly session") busy_store).
  split; [reflexivity |]. split; [reflexivity |].
  apply (duplicate_starts_without_history (new_year_2025 + 1000000) busy_request
           (new_year_2025 + 172800000000) busy_store);
    reflexivity.
Defined.

(** ** Deleting a request (C4) *)

Section Cascade.

Lemma In_filter_other_key {A} (fk : A -> nat) (k : nat) (l : list A) (x : A) :
  In x (filter (fun y => negb (Nat.eqb (fk y) k)) l) <-> In x l /\ fk x <> k.
Proof.
  rewrite filter_In, negb_true_iff, Nat.eqb_neq. reflexivity.
Qed.

Lemma filter_other_key_none {A} (fk : A -> nat) (k : nat) (l : list A) :
  filter (fun y => Nat.eqb (fk y) k) (filter (fun y => negb (Nat.eqb (fk y) k)) l) = [].
Proof.
  induction l as [|x l IH]; cbn [filter]; [reflexivity |].
  destruct (Nat.eqb (fk x) k) eqn:E; cbn [negb filter]; rewrite ?E; exact IH.
Qed.

End Cascade.

(** C4.  Deleting the request [r] (key [k]) succeeds and leaves: the
    requests other than [r]; of the RequestView, Shortlist, Match, Message,
    FinancialClaim and Dispute tables exactly the rows whose [request] is
    not [k] (so none associated with [r] remains); of the ClaimItem table
    exactly the rows that belong to no claim of [r]; of the Receipt table
    exactly the rows that belong to no item of a claim of [r]; and the
    users, preferences and OTP tokens as they were. *)
Theorem delete_request_cascades :
  forall (r : ServiceRequest.t) (k : nat) (db : DB),
    pk r = Some k ->
    exists db' : DB,
      delete r db = (db', Return tt)
      /\ (forall q, In q (requests db') <-> In q (requests db) /\ pk q <> Some k)
      /\ (forall v, In v (view_logs db')
                    <-> In v (view_logs db) /\ RequestView.request v <> k)
      /\ (forall s, In s (shortlist_logs db')
                    <-> In s (shortlist_logs db) /\ Shortlist.request s <> k)
      /\ (forall m, In m (matches db') <-> In m (matches db) /\ Match.request m <> k)
      /\ (forall m, In m (messages db')
                    <-> In m (messages db) /\ Message.request m <> k)
      /\ (forall c, In c (claims db')
                    <-> In c (claims db) /\ FinancialClaim.request c <> k)
      /\ (forall d, In d (disputes db')
                    <-> In d (disputes db) /\ Dispute.request d <> k)
      /\ (forall i, In i (items db')
                    <-> In i (items db)
                        /\ ~ (exists c, In c (claims db)
                                /\ FinancialClaim.request c = k
                                /\ ClaimItem.claim i = FinancialClaim.pk c))
      /\ (forall x, In x (receipts db')
                    <-> In x (receipts db)
                        /\ ~ (exists i c, In i (items db) /\ In c (claims db)
                                /\ FinancialClaim.request c = k
                                /\ ClaimItem.claim i = FinancialClaim.pk c
                                /\ Receipt.item x = ClaimItem.pk i))
      /\ view_logs_of k db' = [] /\ shortlist_logs_of k db' = []
      /\ match_of k db' = [] /\ messages_of k db' = []
      /\ claims_of k db' = [] /\ disputes_of k db' = []
      /\ users db' = users db /\ pin_prefs db' = pin_prefs db
      /\ otp_tokens db' = otp_tokens db.
Proof.
  intros r k db Hk. unfold delete. rewrite Hk.
  eexists. split; [reflexivity |].
  cbn [requests view_logs shortlist_logs matches messages claims items receipts
       disputes users pin_prefs otp_tokens].
  assert (Hclaim : forall i,
            existsb (fun c => Nat.eqb (ClaimItem.claim i) (FinancialClaim.pk c))
                    (filter (fun c => Nat.eqb (FinancialClaim.request c) k) (claims db))
            = true
            <-> exists c, In c (claims db) /\ FinancialClaim.request c = k
                          /\ ClaimItem.claim i = FinancialClaim.pk c).
  { intros i. rewrite existsb_exists. split.
    - intros (c & Hc & E). apply filter_In in Hc as [Hc Hr].
      apply Nat.eqb_eq in Hr, E. eauto.
    - intros (c & Hc & Hr & E). exists c. rewrite filter_In, !Nat.eqb_eq. auto. }
  split.
  { intros q. rewrite filter_In, negb_true_iff, <- not_true_iff_false, has_pk_iff.
    reflexivity. }
  do 6 (split; [intros ?; apply In_filter_other_key |]).
  split.
  { intros i. rewrite filter_In, negb_true_iff, <- not_true_iff_false, Hclaim.
    reflexivity. }
  split.
  { intros x. rewrite filter_In, negb_true_iff, <- not_true_iff_false, existsb_exists.
    split; intros [Hx Hno]; (split; [exact Hx |]); intros Hyes; apply Hno.
    - destruct Hyes as (i & c & Hi & Hc & Hr & Hic & Hxi).
      exists i. rewrite filter_In, Hclaim, Nat.eqb_eq. eauto 8.
    - destruct Hyes as (i & Hi & Hxi). apply filter_In in Hi as [Hi Hic].
      apply Hclaim in Hic as (c & Hc & Hr & Hic). apply Nat.eqb_eq in Hxi.
      exists i, c. auto. }
  unfold view_logs_of, shortlist_logs_of, match_of, messages_of, claims_of,
    disputes_of.
  cbn [view_logs shortlist_logs matches messages claims disputes].
  repeat (split; [apply filter_other_key_none |]).
  auto.
Qed.

(** Witness: the busy request is deleted from the store of two requests;
    what remains is the other request with its view, claim, item and
    receipt. *)
Lemma delete_request_cascades_witness :
  (let db' := fst (delete busy_request two_request_store) in
   requests db' = [quiet_request]
   /\ List.length (view_logs db') = 1%nat /\ shortlist_logs db' = []
   /\ matches db' = [] /\ messages db' = [] /\ disputes db' = []
   /\ List.length (claims db') = 1%nat /\ List.length (items db') = 1%nat
   /\ List.length (receipts db') = 1%nat)
  /\ exists db' : DB,
      delete busy_request two_request_store = (db', Return tt)
      /\ (forall q, In q (requests db')
                    <-> In q (requests two_request_store) /\ pk q <> Some 1%nat)
      /\ (forall v, In v (view_logs db')
                    <-> In v (view_logs two_request_store)
                        /\ RequestView.request v <> 1%nat)
      /\ (forall s, In s (shortlist_logs db')
                    <-> In s (shortlist_logs two_request_store)
                        /\ Shortlist.request s <> 1%nat)
      /\ (forall m, In m (matches db')
                    <-> In m (matches two_request_store) /\ Match.request m <> 1%nat)
      /\ (forall m, In m (messages db')
                    <-> In m (messages two_request_store)
                        /\ Message.request m <> 1%nat)
      /\ (forall c, In c (claims db')
                    <-> In c (claims two_request_store)
                        /\ FinancialClaim.request c <> 1%nat)
      /\ (forall d, In d (disputes db')
                    <-> In d (disputes two_request_store)
                        /\ Dispute.request d <> 1%nat)
      /\ (forall i, In i (items db')
                    <-> In i (items two_request_store)
                        /\ ~ (exists c, In c (claims two_request_store)
                                /\ FinancialClaim.request c = 1%nat
                                /\ ClaimItem.claim i = FinancialClaim.pk c))
      /\ (forall x, In x (receipts db')
                    <-> In x (receipts two_request_store)
                        /\ ~ (exists i c, In i (items two_request_store)
                                /\ In c (claims two_request_store)
                                /\ FinancialClaim.request c = 1%nat
                                /\ ClaimItem.claim i = FinancialClaim.pk c
                                /\ Receipt.item x = ClaimItem.pk i))
      /\ view_logs_of 1 db' = [] /\ shortlist_logs_of 1 db' = []
      /\ match_of 1 db' = [] /\ messages_of 1 db' = []
      /\ claims_of 1 db' = [] /\ disputes_of 1 db' = []
      /\ users db' = users two_request_store
      /\ pin_prefs db' = pin_prefs two_request_store
      /\ otp_tokens db' = otp_tokens two_request_store.
Proof.
  split; [repeat split |].
  apply (delete_request_cascades busy_request 1%nat two_request_store).
  reflexivity.
Defined.

(** ** Validation of ClaimItem.total_amount (C7) *)

Section Amount.

Lemma nb_digits_pos (c : N) : 1 <= Z.of_nat (nb_digits (N.to_uint c)).
Proof.
  pose proof (to_uint_upper c) as Hup.
  destruct (nb_digits (N.to_uint c)) as [|n] eqn:E; [| lia].
  change (10 ^ N.of_nat 0)%N with 1%N in Hup.
  assert (c = 0%N) by lia. subst c. discriminate E.
Qed.

(** A coefficient has at most [k] digits exactly when it is below [10^k]. *)
Lemma nb_digits_le_iff (c : N) (k : Z) :
  1 <= k ->
  (Z.of_nat (nb_digits (N.to_uint c)) <= k <-> Z.of_N c < 10 ^ k).
Proof.
  intros Hk. pose proof (nb_digits_pos c) as Hpos.
  pose proof (to_uint_upper c) as Hup. apply N2Z.inj_lt in Hup.
  rewrite N2Z.inj_pow, nat_N_Z in Hup. change (Z.of_N 10) with 10 in Hup.
  split.
  - intros Hle. eapply Z.lt_le_trans; [exact Hup |].
    apply Z.pow_le_mono_r; lia.
  - intros Hlt. destruct (N.eq_dec c 0) as [->|Hc]; [cbn; lia |].
    pose proof (to_uint_lower c Hc) as Hlow. apply N2Z.inj_le in Hlow.
    rewrite N2Z.inj_pow, nat_N_Z in Hlow. change (Z.of_N 10) with 10 in Hlow.
    destruct (Z_le_gt_dec (Z.of_nat (nb_digits (N.to_uint c))) k) as [|Hgt];
      [assumption | exfalso].
    assert (10 ^ k <= 10 ^ Z.of_nat (nb_digits (N.to_uint c) - 1))
      by (apply Z.pow_le_mono_r; lia).
    lia.
Qed.

(** The same for a coefficient followed by [e] zeros. *)
Lemma shifted_digits_le_iff (c : N) (e : Z) :
  c <> 0%N -> 0 <= e ->
  (Z.of_nat (nb_digits (N.to_uint c)) + e <= 8 <-> Z.of_N c * 10 ^ e < 10 ^ 8).
Proof.
  intros Hc He. pose proof (nb_digits_pos c) as Hpos.
  assert (Hpe : 0 < 10 ^ e) by (apply Z.pow_pos_nonneg; lia).
  destruct (Z_lt_le_dec e 8) as [Hlt|Hge].
  - replace 8 with ((8 - e) + e) at 2 by lia.
    rewrite Z.pow_add_r by lia.
    rewrite <- Z.mul_lt_mono_pos_r by exact Hpe.
    rewrite <- nb_digits_le_iff by lia. lia.
  - split; [lia |]. intros H. exfalso.
    assert (10 ^ 8 <= 10 ^ e) by (apply Z.pow_le_mono_r; lia).
    assert (1 <= Z.of_N c) by lia. nia.
Qed.

(** The precision validator of the field, in terms of the digit count. *)
Lemma DecimalValidator_accepts (v : Decimal.t) :
  DecimalValidator 10 2 v = []
  <-> let len := Z.of_nat (nb_digits (Decimal.digit_tuple v)) in
      let e := Decimal.exponent v in
      (0 <= e /\ (Decimal.coefficient v = 0%N \/ len + e <= 8))
      \/ (e < 0 /\ - e <= 2 /\ len + e <= 8).
Proof.
  unfold DecimalValidator, Decimal.digit_tuple.
  pose proof (nb_digits_pos (Decimal.coefficient v)) as Hpos.
  set (len := Z.of_nat (nb_digits (N.to_uint (Decimal.coefficient v)))) in *.
  set (e := Decimal.exponent v). cbv zeta.
  destruct (Z.leb_spec 0 e) as [He|He].
  - destruct (N.eqb_spec (Decimal.coefficient v) 0) as [Hc|Hc].
    + assert (len = 1) by (unfold len; rewrite Hc; reflexivity).
      repeat match goal with
             | |- context [?a <? ?b] => destruct (Z.ltb_spec a b)
             end; split; intros; try discriminate; try lia; auto.
    + repeat match goal with
             | |- context [?a <? ?b] => destruct (Z.ltb_spec a b)
             end; split; intros; try discriminate; try reflexivity;
        try lia; try (exfalso; tauto || lia).
      all: intuition lia.
  - destruct (Z.ltb_spec len (Z.abs e)) as [Hl|Hl];
      repeat match goal with
             | |- context [?a <? ?b] => destruct (Z.ltb_spec a b)
             end; split; intros; try discriminate; try reflexivity;
        try lia; try (right; lia); try (exfalso; lia).
Qed.

(** The magnitude [coefficient * 10^exponent] of a decimal. *)
Lemma magnitude_lt_iff (c : N) (e : Z) :
  (inject_Z (Z.of_N c) * inject_Z 10 ^ e < inject_Z 100000000)%Q
  <-> (0 <= e /\ Z.of_N c * 10 ^ e < 10 ^ 8)
      \/ (e < 0 /\ Z.of_N c < 10 ^ (8 - e)).
Proof.
  change 100000000 with (10 ^ 8).
  destruct (Z_le_gt_dec 0 e) as [He|He].
  - rewrite <- Zpower_Qpower by exact He.
    rewrite <- inject_Z_mult, <- Zlt_Qlt. split; [auto | intros [[_ H]|[H _]]; [exact H | lia]].
  - replace e with (- (- e)) at 1 by lia. rewrite Qpower_opp.
    rewrite <- Zpower_Qpower by lia.
    assert (Hpe : 0 < 10 ^ (- e)) by (apply Z.pow_pos_nonneg; lia).
    assert (HD : (0 < inject_Z (10 ^ (- e)))%Q)
      by (change 0%Q with (inject_Z 0); rewrite <- Zlt_Qlt; exact Hpe).
    rewrite <- (Qmult_lt_r _ _ _ HD).
    rewrite <- Qmult_assoc, (Qmult_comm (/ _)), Qmult_inv_r, Qmult_1_r
      by (intros E; rewrite E in HD; discriminate).
    rewrite <- inject_Z_mult, <- Zlt_Qlt.
    replace (8 - e) with (8 + - e) by lia. rewrite Z.pow_add_r by lia.
    split; [right; split; [lia | assumption] | intros [[H _]|[_ H]]; [lia | exact H]].
Qed.

Lemma magnitude_zero (c : N) (e : Z) :
  (inject_Z (Z.of_N c) * inject_Z 10 ^ e <= 0)%Q -> c = 0%N.
Proof.
  intros H. destruct (N.eq_dec c 0) as [|Hc]; [assumption | exfalso].
  assert (Hp : (0 < inject_Z (Z.of_N c) * inject_Z 10 ^ e)%Q).
  { apply Qmult_lt_0_compat.
    - change 0%Q with (inject_Z 0). rewrite <- Zlt_Qlt. lia.
    - apply Qpower_0_lt. reflexivity. }
  apply (Qlt_irrefl 0). eapply Qlt_le_trans; eauto.
Qed.

(** A non-negative decimal is its magnitude. *)
Lemma value_nonneg (v : Decimal.t) :
  (0 <= Decimal.value v)%Q ->
  (Decimal.value v
   == inject_Z (Z.of_N (Decimal.coefficient v)) * inject_Z 10 ^ Decimal.exponent v)%Q.
Proof.
  unfold Decimal.value. cbv zeta. destruct (Decimal.sign v); [| reflexivity].
  intros H. apply Qopp_le_compat in H. rewrite Qopp_involutive in H.
  change (- 0)%Q with 0%Q in H. apply magnitude_zero in H. rewrite H.
  cbn [Z.of_N]. now rewrite Qmult_0_l.
Qed.

Lemma MinValueValidator_accepts (v : Decimal.t) :
  MinValueValidator 0 v = [] <-> (0 <= Decimal.value v)%Q.
Proof.
  unfold MinValueValidator. rewrite <- Qle_bool_iff.
  change (inject_Z 0) with 0%Q.
  destruct (Qle_bool 0 (Decimal.value v)); cbn [negb]; split;
    intros; try reflexivity; discriminate.
Qed.

Lemma clean_total_amount_accepts (v : Decimal.t) :
  clean_total_amount v = Return tt
  <-> MinValueValidator 0 v = [] /\ DecimalValidator 10 2 v = [].
Proof.
  unfold clean_total_amount, run_validators, total_amount_validators.
  cbn [flat_map]. rewrite List.app_nil_r.
  destruct (MinValueValidator 0 v) as [|m ms]; cbn [app].
  - destruct (DecimalValidator 10 2 v); split; intros; auto; try discriminate.
    destruct H; discriminate.
  - split; [discriminate | intros [? _]; discriminate].
Qed.

End Amount.

(** C7 (as amended).  Validation of [ClaimItem.total_amount] accepts a value
    exactly when it is non-negative, below 100 000 000 (at most eight digits
    before the decimal point) and written with at most two decimal places
    (exponent at least -2), as [max_digits=10] and [decimal_places=2]
    require.  A total_amount of -0.01 is rejected with a ValidationError
    (code [min_value]); a total_amount of 0.00 is accepted. *)
Theorem total_amount_accepted_iff :
  forall v : Decimal.t,
    (clean_total_amount v = Return tt
     <-> (0 <= Decimal.value v)%Q
         /\ (Decimal.value v < inject_Z 100000000)%Q
         /\ -2 <= Decimal.exponent v)
    /\ clean_total_amount (Decimal.mk true 1 (-2))
       = Raise (ValidationError ["min_value"])
    /\ clean_total_amount (Decimal.mk false 0 (-2)) = Return tt.
Proof.
  intros v. split; [| split; reflexivity].
  rewrite clean_total_amount_accepts, MinValueValidator_accepts,
    DecimalValidator_accepts.
  cbv zeta. unfold Decimal.digit_tuple.
  set (c := Decimal.coefficient v). set (e := Decimal.exponent v).
  pose proof (nb_digits_pos c) as Hpos.
  assert (Hfit :
    ((0 <= e /\ (c = 0%N \/ Z.of_nat (nb_digits (N.to_uint c)) + e <= 8))
     \/ (e < 0 /\ - e <= 2 /\ Z.of_nat (nb_digits (N.to_uint c)) + e <= 8))
    <-> ((inject_Z (Z.of_N c) * inject_Z 10 ^ e < inject_Z 100000000)%Q
         /\ -2 <= e)).
  { rewrite magnitude_lt_iff.
    destruct (Z_le_gt_dec 0 e) as [He|He].
    - destruct (N.eq_dec c 0) as [Hc|Hc].
      + rewrite Hc. cbn [Z.of_N]. rewrite Z.mul_0_l.
        assert (0 < 10 ^ 8) by reflexivity. intuition lia.
      + pose proof (shifted_digits_le_iff c e Hc He). intuition lia.
    - pose proof (nb_digits_le_iff c (8 - e) ltac:(lia)). intuition lia. }
  split.
  - intros [Hnn Hdec]. split; [exact Hnn |].
    rewrite (value_nonneg v Hnn). fold c e. now apply Hfit.
  - intros (Hnn & Hlt & He). split; [exact Hnn |].
    rewrite (value_nonneg v Hnn) in Hlt. fold c e in Hlt. apply Hfit. auto.
Qed.

(** C7, counterexample to the claim as stated: 0.001 and 100000000.00 are
    non-negative, yet validation rejects them. *)
Lemma nonnegative_amounts_rejected :
  Qle_bool 0 (Decimal.value (Decimal.mk false 1 (-3))) = true
  /\ clean_total_amount (Decimal.mk false 1 (-3))
     = Raise (ValidationError ["max_decimal_places"])
  /\ Qle_bool 0 (Decimal.value (Decimal.mk false 10000000000 (-2))) = true
  /\ clean_total_amount (Decimal.mk false 10000000000 (-2))
     = Raise (ValidationError ["max_digits"]).
Proof. repeat split; reflexivity. Qed.

(** ** Cascades keep referential integrity *)

Section Integrity.

Lemma forallb_filter_weaken {A} (keep p q : A -> bool) (l : list A) :
  forallb p l = true ->
  (forall x, In x l -> keep x = true -> p x = true -> q x = true) ->
  forallb q (filter keep l) = true.
Proof.
  intros Hp Hq. apply forallb_forall. intros x Hx.
  apply filter_In in Hx as [Hx Hk].
  rewrite forallb_forall in Hp. auto.
Qed.

Lemma forallb_weaken {A} (p q : A -> bool) (l : list A) :
  forallb p l = true ->
  (forall x, In x l -> p x = true -> q x = true) ->
  forallb q l = true.
Proof.
  intros Hp Hq. apply forallb_forall. intros x Hx.
  rewrite forallb_forall in Hp. auto.
Qed.

Lemma existsb_filter_keep {A} (keep p : A -> bool) (l : list A) :
  existsb p l = true ->
  (forall x, In x l -> p x = true -> keep x = true) ->
  existsb p (filter keep l) = true.
Proof.
  intros Hp Hk. apply existsb_exists in Hp as (x & Hx & Hpx).
  apply existsb_exists. exists x. split; [| exact Hpx].
  apply filter_In. auto.
Qed.

Lemma has_pk_functional (j k : nat) (r : ServiceRequest.t) :
  has_pk j r = true -> has_pk k r = true -> j = k.
Proof. rewrite !has_pk_iff. congruence. Qed.

(** The conjuncts of [referential_integrity], one per table. *)
Lemma referential_integrity_tables (db : DB) :
  referential_integrity db = true
  <-> forallb (fun p => user_exists (PINPreference.user p) db) (pin_prefs db) = true
      /\ forallb (fun r => user_exists (pin r) db) (requests db) = true
      /\ forallb (fun v => request_exists (RequestView.request v) db
                           && user_exists (RequestView.viewer v) db) (view_logs db) = true
      /\ forallb (fun s => request_exists (Shortlist.request s) db
                           && user_exists (Shortlist.csr s) db) (shortlist_logs db) = true
      /\ forallb (fun m => request_exists (Match.request m) db
                           && user_exists (Match.cv m) db) (matches db) = true
      /\ forallb (fun m => request_exists (Message.request m) db
                           && user_exists (Message.sender m) db) (messages db) = true
      /\ forallb (fun c => request_exists (FinancialClaim.request c) db
                           && user_exists (FinancialClaim.cv c) db) (claims db) = true
      /\ forallb (fun i => claim_exists (ClaimItem.claim i) db) (items db) = true
      /\ forallb (fun x => item_exists (Receipt.item x) db) (receipts db) = true
      /\ forallb (fun d => request_exists (Dispute.request d) db
                           && user_exists (Dispute.pin d) db) (disputes db) = true
      /\ forallb (fun t => user_exists (OTPToken.user t) db) (otp_tokens db) = true.
Proof. unfold referential_integrity. rewrite !andb_true_iff. tauto. Qed.

(** A request other than the deleted one is still stored. *)
Lemma request_survives (j k : nat) (db : DB) :
  j <> k -> request_exists j db = true ->
  existsb (has_pk j) (filter (fun r => negb (has_pk k r)) (requests db)) = true.
Proof.
  intros Hjk Hex. apply existsb_filter_keep; [exact Hex |].
  intros r _ Hj. apply negb_true_iff, not_true_iff_false. intros Hk.
  apply Hjk. eapply has_pk_functional; eauto.
Qed.

End Integrity.

(** X1.  Deleting a request keeps referential integrity: when every foreign
    key stored names a stored row before [delete], the same holds after it;
    the cascade leaves no view, shortlist, match, message, claim, item,
    receipt or dispute pointing at a row that is gone. *)
Theorem delete_keeps_referential_integrity :
  forall (r : ServiceRequest.t) (db : DB),
    referential_integrity db = true ->
    referential_integrity (fst (delete r db)) = true.
Proof.
  intros r db Hri. unfold delete.
  destruct (pk r) as [k|]; [| exact Hri]. cbn [fst].
  apply referential_integrity_tables in Hri
    as (Hpref & Hreq & Hview & Hshort & Hmatch & Hmsg & Hclaim & Hitem & Hrcpt
        & Hdisp & Hotp).
  apply referential_integrity_tables.
  unfold user_exists, request_exists, claim_exists, item_exists in *.
  cbn [users pin_prefs requests view_logs shortlist_logs matches messages claims
       items receipts disputes otp_tokens].
  assert (Hkeep : forall j u, negb (Nat.eqb j k) = true ->
            existsb (has_pk j) (requests db) && u = true ->
            existsb (has_pk j) (filter (fun q => negb (has_pk k q)) (requests db))
            && u = true).
  { intros j u Hjk H. apply andb_true_iff in H as [Hj Hu].
    apply negb_true_iff, Nat.eqb_neq in Hjk.
    apply andb_true_iff. split; [| exact Hu]. now apply request_survives. }
  split; [exact Hpref |].
  split; [eapply forallb_filter_weaken; [exact Hreq | auto] |].
  split; [eapply forallb_filter_weaken; [exact Hview | intros; apply Hkeep; auto] |].
  split; [eapply forallb_filter_weaken; [exact Hshort | intros; apply Hkeep; auto] |].
  split; [eapply forallb_filter_weaken; [exact Hmatch | intros; apply Hkeep; auto] |].
  split; [eapply forallb_filter_weaken; [exact Hmsg | intros; apply Hkeep; auto] |].
  split; [eapply forallb_filter_weaken; [exact Hclaim | intros; apply Hkeep; auto] |].
  split.
  { eapply forallb_filter_weaken; [exact Hitem |].
    intros i _ Hkept Hpar. apply existsb_filter_keep; [exact Hpar |].
    intros c Hc Hic. apply negb_true_iff, not_true_iff_false. intros Hck.
    apply negb_true_iff, not_true_iff_false in Hkept. apply Hkept.
    apply existsb_exists. exists c. rewrite filter_In.
    apply Nat.eqb_eq in Hic. rewrite Hic, Nat.eqb_refl. auto. }
  split.
  { eapply forallb_filter_weaken; [exact Hrcpt |].
    intros x _ Hkept Hpar. apply existsb_filter_keep; [exact Hpar |].
    intros i Hi Hxi. apply negb_true_iff, not_true_iff_false. intros Hgone.
    apply negb_true_iff, not_true_iff_false in Hkept. apply Hkept.
    apply existsb_exists. exists i. rewrite filter_In.
    apply Nat.eqb_eq in Hxi. rewrite Hxi, Nat.eqb_refl. auto. }
  split; [eapply forallb_filter_weaken; [exact Hdisp | intros; apply Hkeep; auto] |].
  exact Hotp.
Qed.

(** Witness: the busy request is deleted from the populated store. *)
Lemma delete_keeps_referential_integrity_witness :
  referential_integrity populated_store = true
  /\ List.length (requests (fst (delete busy_request populated_store))) = 1%nat
  /\ referential_integrity (fst (delete busy_request populated_store)) = true.
Proof.
  split; [reflexivity |]. split; [reflexivity |].
  apply (delete_keeps_referential_integrity busy_request populated_store).
  reflexivity.
Defined.

(** X2.  Deleting a claim item removes exactly that item and the receipts
    attached to it, touches no other table, and keeps referential
    integrity. *)
Theorem ClaimItem_delete_cascades :
  forall (self : ClaimItem.t) (db : DB),
    referential_integrity db = true ->
    let db' := ClaimItem_delete self db in
    referential_integrity db' = true
    /\ item_exists (ClaimItem.pk self) db' = false
    /\ (forall i, In i (items db')
                  <-> In i (items db) /\ ClaimItem.pk i <> ClaimItem.pk self)
    /\ (forall x, In x (receipts db')
                  <-> In x (receipts db) /\ Receipt.item x <> ClaimItem.pk self)
    /\ claims db' = claims db /\ requests db' = requests db
    /\ users db' = users db.
Proof.
  intros self db Hri db'. subst db'. unfold ClaimItem_delete.
  set (k := ClaimItem.pk self).
  split; [| split; [| split; [| split; [| auto]]]].
  - apply referential_integrity_tables in Hri
      as (Hpref & Hreq & Hview & Hshort & Hmatch & Hmsg & Hclaim & Hitem & Hrcpt
          & Hdisp & Hotp).
    apply referential_integrity_tables.
    unfold user_exists, request_exists, claim_exists, item_exists in *.
    cbn [users pin_prefs requests view_logs shortlist_logs matches messages claims
         items receipts disputes otp_tokens].
    repeat (split; [assumption |]).
    split; [eapply forallb_filter_weaken; [exact Hitem | auto] |].
    split; [| auto].
    eapply forallb_filter_weaken; [exact Hrcpt |].
    intros x _ Hkept Hpar. apply existsb_filter_keep; [exact Hpar |].
    intros i _ Hxi. apply Nat.eqb_eq in Hxi. now rewrite Hxi.
  - unfold item_exists. cbn [items]. apply not_true_iff_false.
    rewrite existsb_exists. intros (i & Hi & Hik).
    apply filter_In in Hi as [_ Hne]. rewrite Hik in Hne. discriminate.
  - intros i. cbn [items]. apply In_filter_other_key.
  - intros x. cbn [receipts]. apply In_filter_other_key.
Qed.

(** Witness: the taxi item of the populated store. *)
Lemma ClaimItem_delete_cascades_witness :
  let taxi := ClaimItem.mk 1 1 "Taxi" 20089 (Decimal.mk false 1250 (-2)) "Cash" "" in
  let db' := ClaimItem_delete taxi populated_store in
  In taxi (items populated_store)
  /\ List.length (receipts db') = 1%nat
  /\ referential_integrity db' = true
  /\ item_exists (ClaimItem.pk taxi) db' = false
  /\ (forall i, In i (items db')
                <-> In i (items populated_store) /\ ClaimItem.pk i <> ClaimItem.pk taxi)
  /\ (forall x, In x (receipts db')
                <-> In x (receipts populated_store)
                    /\ Receipt.item x <> ClaimItem.pk taxi)
  /\ claims db' = claims populated_store /\ requests db' = requests populated_store
  /\ users db' = users populated_store.
Proof.
  split; [left; reflexivity |]. split; [reflexivity |].
  apply (ClaimItem_delete_cascades
           (ClaimItem.mk 1 1 "Taxi" 20089 (Decimal.mk false 1250 (-2)) "Cash" "")
           populated_store).
  reflexivity.
Defined.

(** X3.  Deleting a financial claim removes exactly that claim, its items
    and the receipts of those items, touches no other table, and keeps
    referential integrity. *)
Theorem FinancialClaim_delete_cascades :
  forall (self : FinancialClaim.t) (db : DB),
    referential_integrity db = true ->
    let db' := FinancialClaim_delete self db in
    referential_integrity db' = true
    /\ claim_exists (FinancialClaim.pk self) db' = false
    /\ (forall c, In c (claims db')
                  <-> In c (claims db) /\ FinancialClaim.pk c <> FinancialClaim.pk self)
    /\ (forall i, In i (items db')
                  <-> In i (items db) /\ ClaimItem.claim i <> FinancialClaim.pk self)
    /\ (forall x, In x (receipts db')
                  <-> In x (receipts db)
                      /\ ~ (exists i, In i (items db)
                              /\ ClaimItem.claim i = FinancialClaim.pk self
                              /\ Receipt.item x = ClaimItem.pk i))
    /\ requests db' = requests db /\ users db' = users db
    /\ disputes db' = disputes db /\ messages db' = messages db.
Proof.
  intros self db Hri db'. subst db'. unfold FinancialClaim_delete.
  set (k := FinancialClaim.pk self).
  assert (Hin_items : forall x,
            existsb (fun i => Nat.eqb (Receipt.item x) (ClaimItem.pk i))
                    (filter (fun i => Nat.eqb (ClaimItem.claim i) k) (items db)) = true
            <-> exists i, In i (items db) /\ ClaimItem.claim i = k
                          /\ Receipt.item x = ClaimItem.pk i).
  { intros x. rewrite existsb_exists. split.
    - intros (i & Hi & E). apply filter_In in Hi as [Hi Hc].
      apply Nat.eqb_eq in Hc, E. eauto.
    - intros (i & Hi & Hc & E). exists i. rewrite filter_In, !Nat.eqb_eq. auto. }
  split; [| split; [| split; [| split; [| split; [| auto]]]]].
  - apply referential_integrity_tables in Hri
      as (Hpref & Hreq & Hview & Hshort & Hmatch & Hmsg & Hclaim & Hitem & Hrcpt
          & Hdisp & Hotp).
    apply referential_integrity_tables.
    unfold user_exists, request_exists, claim_exists, item_exists in *.
    cbn [users pin_prefs requests view_logs shortlist_logs matches messages claims
         items receipts disputes otp_tokens].
    repeat (split; [assumption |]).
    split; [eapply forallb_filter_weaken; [exact Hclaim | auto] |].
    split.
    { eapply forallb_filter_weaken; [exact Hitem |].
      intros i _ Hkept Hpar. apply existsb_filter_keep; [exact Hpar |].
      intros c _ Hic. apply Nat.eqb_eq in Hic. now rewrite Hic. }
    split; [| auto].
    eapply forallb_filter_weaken; [exact Hrcpt |].
    intros x _ Hkept Hpar. apply existsb_filter_keep; [exact Hpar |].
    intros i Hi Hxi. apply negb_true_iff, not_true_iff_false. intros Hik.
    apply negb_true_iff, not_true_iff_false in Hkept. apply Hkept.
    apply Hin_items. exists i. apply Nat.eqb_eq in Hik, Hxi. auto.
  - unfold claim_exists. cbn [claims]. apply not_true_iff_false.
    rewrite existsb_exists. intros (c & Hc & Hck).
    apply filter_In in Hc as [_ Hne]. rewrite Hck in Hne. discriminate.
  - intros c. cbn [claims]. apply In_filter_other_key.
  - intros i. cbn [items]. apply In_filter_other_key.
  - intros x. cbn [receipts].
    rewrite filter_In, negb_true_iff, <- not_true_iff_false, Hin_items.
    reflexivity.
Qed.

(** Witness: the claim of the busy request in the populated store. *)
Lemma FinancialClaim_delete_cascades_witness :
  let claim := FinancialClaim.mk 1 1 6 false false (new_year_2025 + 9) in
  let db' := FinancialClaim_delete claim populated_store in
  In claim (claims populated_store)
  /\ List.length (items db') = 1%nat /\ List.length (receipts db') = 1%nat
  /\ referential_integrity db' = true
  /\ claim_exists (FinancialClaim.pk claim) db' = false
  /\ (forall c, In c (claims db')
                <-> In c (claims populated_store)
                    /\ FinancialClaim.pk c <> FinancialClaim.pk claim)
  /\ (forall i, In i (items db')
                <-> In i (items populated_store)
                    /\ ClaimItem.claim i <> FinancialClaim.pk claim)
  /\ (forall x, In x (receipts db')
                <-> In x (receipts populated_store)
                    /\ ~ (exists i, In i (items populated_store)
                            /\ ClaimItem.claim i = FinancialClaim.pk claim
                            /\ Receipt.item x = ClaimItem.pk i))
  /\ requests db' = requests populated_store /\ users db' = users populated_store
  /\ disputes db' = disputes populated_store
  /\ messages db' = messages populated_store.
Proof.
  split; [left; reflexivity |]. split; [reflexivity |]. split; [reflexivity |].
  apply (FinancialClaim_delete_cascades
           (FinancialClaim.mk 1 1 6 false false (new_year_2025 + 9)) populated_store).
  reflexivity.
Defined.

(** X4.  Deleting a user removes the user, and with it every row that names
    the user (preference, OTP tokens, requests as PIN, views, shortlists,
    matches, messages, claims, disputes); the requests that remain are
    exactly those of other PINs, the users that remain exactly the others;
    and referential integrity is kept, so nothing that remains points at a
    row the cascade removed. *)
Theorem User_delete_cascades :
  forall (self : User.t) (db : DB),
    referential_integrity db = true ->
    let k := User.pk self in
    let db' := User_delete self db in
    referential_integrity db' = true
    /\ user_exists k db' = false
    /\ (forall w, In w (users db') <-> In w (users db) /\ User.pk w <> k)
    /\ (forall q, In q (requests db') <-> In q (requests db) /\ pin q <> k)
    /\ (forall p, In p (pin_prefs db')
                  <-> In p (pin_prefs db) /\ PINPreference.user p <> k)
    /\ (forall t, In t (otp_tokens db')
                  <-> In t (otp_tokens db) /\ OTPToken.user t <> k)
    /\ forallb (fun v => negb (Nat.eqb (RequestView.viewer v) k)) (view_logs db') = true
    /\ forallb (fun s => negb (Nat.eqb (Shortlist.csr s) k)) (shortlist_logs db') = true
    /\ forallb (fun m => negb (Nat.eqb (Match.cv m) k)) (matches db') = true
    /\ forallb (fun m => negb (Nat.eqb (Message.sender m) k)) (messages db') = true
    /\ forallb (fun c => negb (Nat.eqb (FinancialClaim.cv c) k)) (claims db') = true
    /\ forallb (fun d => negb (Nat.eqb (Dispute.pin d) k)) (disputes db') = true.
Proof.
  intros self db Hri k db'. subst db'. unfold User_delete. fold k.
  set (in_requests := fun j : nat =>
         existsb (has_pk j) (filter (fun r => Nat.eqb (pin r) k) (requests db))).
  assert (Huser : forall w, negb (Nat.eqb w k) = true ->
            existsb (fun u => Nat.eqb (User.pk u) w) (users db) = true ->
            existsb (fun u => Nat.eqb (User.pk u) w)
                    (filter (fun u => negb (Nat.eqb (User.pk u) k)) (users db)) = true).
  { intros w Hw Hex. apply existsb_filter_keep; [exact Hex |].
    intros u _ Hu. apply Nat.eqb_eq in Hu. now rewrite Hu. }
  assert (Hreqs : forall j, in_requests j = false ->
            existsb (has_pk j) (requests db) = true ->
            existsb (has_pk j)
                    (filter (fun r => negb (Nat.eqb (pin r) k)) (requests db)) = true).
  { intros j Hj Hex. apply existsb_filter_keep; [exact Hex |].
    intros q Hq Hjq. apply negb_true_iff, not_true_iff_false. intros Hpin.
    apply not_true_iff_false in Hj. apply Hj. unfold in_requests.
    apply existsb_exists. exists q. rewrite filter_In. auto. }
  assert (Hboth : forall j w, negb (Nat.eqb w k || in_requests j) = true ->
            existsb (has_pk j) (requests db)
            && existsb (fun u => Nat.eqb (User.pk u) w) (users db) = true ->
            existsb (has_pk j)
                    (filter (fun r => negb (Nat.eqb (pin r) k)) (requests db))
            && existsb (fun u => Nat.eqb (User.pk u) w)
                       (filter (fun u => negb (Nat.eqb (User.pk u) k)) (users db))
            = true).
  { intros j w Hkept H. apply andb_true_iff in H as [Hj Hw].
    apply negb_true_iff, orb_false_iff in Hkept as [Hwk Hjr].
    apply andb_true_iff. split; [now apply Hreqs |].
    apply Huser; [now rewrite Hwk | exact Hw]. }
  assert (Hnames : forall {A} (fk : A -> nat) (rq : A -> nat) (l : list A),
            forallb (fun x => negb (Nat.eqb (fk x) k))
                    (filter (fun x => negb (Nat.eqb (fk x) k || in_requests (rq x))) l)
            = true).
  { intros A fk rq l. apply forallb_forall. intros x Hx.
    apply filter_In in Hx as [_ Hx].
    apply negb_true_iff, orb_false_iff in Hx as [Hx _]. now rewrite Hx. }
  split.
  { apply referential_integrity_tables in Hri
      as (Hpref & Hreq & Hview & Hshort & Hmatch & Hmsg & Hclaim & Hitem & Hrcpt
          & Hdisp & Hotp).
    apply referential_integrity_tables.
    unfold user_exists, request_exists, claim_exists, item_exists in *.
    cbn [users pin_prefs requests view_logs shortlist_logs matches messages claims
         items receipts disputes otp_tokens].
    split; [eapply forallb_filter_weaken; [exact Hpref | intros; now apply Huser] |].
    split; [eapply forallb_filter_weaken; [exact Hreq | intros; now apply Huser] |].
    split; [eapply forallb_filter_weaken; [exact Hview | intros; now apply Hboth] |].
    split; [eapply forallb_filter_weaken; [exact Hshort | intros; now apply Hboth] |].
    split; [eapply forallb_filter_weaken; [exact Hmatch | intros; now apply Hboth] |].
    split; [eapply forallb_filter_weaken; [exact Hmsg | intros; now apply Hboth] |].
    split; [eapply forallb_filter_weaken; [exact Hclaim | intros; now apply Hboth] |].
    split.
    { eapply forallb_filter_weaken; [exact Hitem |].
      intros i _ Hkept Hpar. apply existsb_filter_keep; [exact Hpar |].
      intros c Hc Hic. apply negb_true_iff, not_true_iff_false. intros Hgone.
      apply negb_true_iff, not_true_iff_false in Hkept. apply Hkept.
      apply existsb_exists. exists c. rewrite filter_In.
      apply Nat.eqb_eq in Hic. rewrite Hic, Nat.eqb_refl. auto. }
    split.
    { eapply forallb_filter_weaken; [exact Hrcpt |].
      intros x _ Hkept Hpar. apply existsb_filter_keep; [exact Hpar |].
      intros i Hi Hxi. apply negb_true_iff, not_true_iff_false. intros Hgone.
      apply negb_true_iff, not_true_iff_false in Hkept. apply Hkept.
      apply existsb_exists. exists i. rewrite filter_In.
      apply Nat.eqb_eq in Hxi. rewrite Hxi, Nat.eqb_refl. auto. }
    split; [eapply forallb_filter_weaken; [exact Hdisp | intros; now apply Hboth] |].
    eapply forallb_filter_weaken; [exact Hotp | intros; now apply Huser]. }
  split.
  { unfold user_exists. cbn [users]. apply not_true_iff_false.
    rewrite existsb_exists. intros (u & Hu & Huk).
    apply filter_In in Hu as [_ Hne]. rewrite Huk in Hne. discriminate. }
  cbn [users requests pin_prefs otp_tokens view_logs shortlist_logs matches
       messages claims disputes].
  split; [intros w; apply In_filter_other_key |].
  split; [intros q; apply In_filter_other_key |].
  split; [intros p; apply In_filter_other_key |].
  split; [intros t; apply In_filter_other_key |].
  repeat split; apply Hnames.
Qed.

(** Witness: alice, the PIN of the busy request, is deleted from the
    populated store; dan's request and its rows remain. *)
Lemma User_delete_cascades_witness :
  referential_integrity populated_store = true
  /\ requests (User_delete alice populated_store) = [quiet_request]
  /\ (let k := User.pk alice in
      let db' := User_delete alice populated_store in
      referential_integrity db' = true
      /\ user_exists k db' = false
      /\ (forall w, In w (users db') <-> In w (users populated_store) /\ User.pk w <> k)
      /\ (forall q, In q (requests db')
                    <-> In q (requests populated_store) /\ pin q <> k)
      /\ (forall p, In p (pin_prefs db')
                    <-> In p (pin_prefs populated_store) /\ PINPreference.user p <> k)
      /\ (forall t, In t (otp_tokens db')
                    <-> In t (otp_tokens populated_store) /\ OTPToken.user t <> k)
      /\ forallb (fun v => negb (Nat.eqb (RequestView.viewer v) k)) (view_logs db') = true
      /\ forallb (fun s => negb (Nat.eqb (Shortlist.csr s) k)) (shortlist_logs db') = true
      /\ forallb (fun m => negb (Nat.eqb (Match.cv m) k)) (matches db') = true
      /\ forallb (fun m => negb (Nat.eqb (Message.sender m) k)) (messages db') = true
      /\ forallb (fun c => negb (Nat.eqb (FinancialClaim.cv c) k)) (claims db') = true
      /\ forallb (fun d => negb (Nat.eqb (Dispute.pin d) k)) (disputes db') = true).
Proof.
  split; [reflexivity |]. split; [reflexivity |].
  apply (User_delete_cascades alice populated_store). reflexivity.
Defined.

(** ** The requests table stays well formed *)

Section RequestsTable.

Lemma keys_distinct_after_filter {A B} (rows : list A) (key : A -> B)
    (keep : A -> bool) :
  NoDup (map key rows) -> NoDup (map key (filter keep rows)).
Proof.
  induction rows as [|x rows IH]; cbn [map filter]; [auto |].
  intros H. inversion H as [|? ? Hnotin Hnd]; subst.
  destruct (keep x); cbn [map]; [| auto].
  constructor; [| auto]. intros Hin. apply Hnotin.
  apply in_map_iff in Hin as (y & Hy & Hin). apply filter_In in Hin as [Hin _].
  apply in_map_iff. eauto.
Qed.

Lemma Forall_filter_keep {A} (P : A -> Prop) (p : A -> bool) (l : list A) :
  Forall P l -> Forall P (filter p l).
Proof.
  intros H. apply Forall_forall. intros x Hx. apply filter_In in Hx as [Hx _].
  rewrite Forall_forall in H. auto.
Qed.

Lemma no_row_of_key (k : nat) (rows : list ServiceRequest.t) :
  existsb (has_pk k) rows = false <-> ~ In (Some k) (map pk rows).
Proof.
  rewrite <- not_true_iff_false, existsb_exists. split; intros H C; apply H.
  - apply in_map_iff in C as (r & Hr & Hin). exists r. now rewrite has_pk_iff.
  - destruct C as (r & Hin & Hr). apply has_pk_iff in Hr.
    apply in_map_iff. eauto.
Qed.

Lemma no_row_of_id (rid : string) (rows : list ServiceRequest.t) :
  existsb (fun r => String.eqb (request_id r) rid) rows = false
  <-> ~ In rid (map request_id rows).
Proof.
  rewrite <- not_true_iff_false, existsb_exists. split; intros H C; apply H.
  - apply in_map_iff in C as (r & Hr & Hin). exists r. now rewrite String.eqb_eq.
  - destruct C as (r & Hin & Hr). apply String.eqb_eq in Hr.
    apply in_map_iff. eauto.
Qed.

(** What [request_id_taken] decides. *)
Lemma request_id_free (self : ServiceRequest.t) (rows : list ServiceRequest.t) :
  request_id_taken self rows = false ->
  forall r, In r rows -> request_id r = request_id self ->
    exists k, pk self = Some k /\ pk r = Some k.
Proof.
  unfold request_id_taken. intros H r Hin Hid.
  rewrite <- not_true_iff_false, existsb_exists in H.
  destruct (pk self) as [k|] eqn:Hk.
  - exists k. split; [reflexivity |]. apply has_pk_iff.
    destruct (has_pk k r) eqn:E; [reflexivity | exfalso].
    apply H. exists r. rewrite Hid, String.eqb_refl, E. auto.
  - exfalso. apply H. exists r. rewrite Hid, String.eqb_refl. auto.
Qed.

(** The UPDATE leaves the keys as they are. *)
Lemma update_keys (k : nat) (self : ServiceRequest.t) (rows : list ServiceRequest.t) :
  pk self = Some k ->
  map pk (map (fun r => if has_pk k r then self else r) rows) = map pk rows.
Proof.
  intros Hk. rewrite map_map. apply map_ext. intros r.
  destruct (has_pk k r) eqn:E; [| reflexivity].
  apply has_pk_iff in E. congruence.
Qed.

Lemma update_absent (k : nat) (self : ServiceRequest.t) (rows : list ServiceRequest.t) :
  ~ In (Some k) (map pk rows) ->
  map (fun r => if has_pk k r then self else r) rows = rows.
Proof.
  intros H. rewrite <- (map_id rows) at 2. apply map_ext_in. intros r Hin.
  destruct (has_pk k r) eqn:E; [| reflexivity].
  exfalso. apply H. apply has_pk_iff in E. apply in_map_iff. eauto.
Qed.

(** The UPDATE leaves the identifiers distinct. *)
Lemma update_ids (k : nat) (self : ServiceRequest.t) (rows : list ServiceRequest.t) :
  pk self = Some k ->
  request_id_taken self rows = false ->
  NoDup (map pk rows) -> NoDup (map request_id rows) ->
  NoDup (map request_id (map (fun r => if has_pk k r then self else r) rows)).
Proof.
  intros Hk. induction rows as [|r rows IH]; intros Hfree Hkeys Hids;
    [constructor |].
  cbn [map] in *.
  inversion Hkeys as [|? ? Hknew Hkeys']; inversion Hids as [|? ? Hinew Hids']; subst.
  assert (Hfree' : request_id_taken self rows = false).
  { unfold request_id_taken in *. cbn [existsb] in Hfree.
    now apply orb_false_iff in Hfree as [_ ?]. }
  assert (Hother : forall q, In q rows -> request_id q = request_id self ->
                     pk q = Some k).
  { intros q Hq Hid. destruct (request_id_free self rows Hfree' q Hq Hid)
      as (k' & Hk' & Hq'). congruence. }
  destruct (has_pk k r) eqn:E.
  - apply has_pk_iff in E. rewrite E in Hknew.
    rewrite update_absent by exact Hknew.
    constructor; [| exact Hids']. intros Hin.
    apply in_map_iff in Hin as (q & Hid & Hq).
    apply Hknew. apply in_map_iff. exists q. split; [| exact Hq]. auto.
  - constructor; [| auto].
    intros Hin. apply in_map_iff in Hin as (q' & Hid & Hq').
    apply in_map_iff in Hq' as (q & Hqq & Hq). subst q'.
    destruct (has_pk k q) eqn:Eq.
    + (* the replaced row carries self's identifier: r would hold it too *)
      destruct (request_id_free self (r :: rows) Hfree r (or_introl eq_refl)
                  (eq_sym Hid)) as (k' & Hk' & Hr).
      assert (k' = k) by congruence. subst k'.
      apply has_pk_iff in Hr. congruence.
    + apply Hinew. apply in_map_iff. eauto.
Qed.

Lemma populated_store_ok : requests_table_ok populated_store.
Proof.
  split; [| split].
  - repeat constructor.
    + exists 1%nat. split; [reflexivity | cbn; lia].
    + exists 2%nat. split; [reflexivity | cbn; lia].
  - repeat constructor; cbn; intuition discriminate.
  - repeat constructor; cbn; intuition discriminate.
Qed.

End RequestsTable.

(** X5.  Whatever instance is saved and however ([force_insert] or not, with
    or without a key or an identifier of its own), [save] leaves the
    requests table well formed: every row has a key the sequence has issued,
    no key occurs twice and no [request_id] occurs twice.  So once
    [unique=True] holds of the table, no [save] can break it. *)
Theorem save_keeps_requests_table :
  forall (now : datetime) (force_insert : bool) (self : ServiceRequest.t) (db : DB),
    requests_table_ok db ->
    requests_table_ok (fst (fst (save now force_insert self db))).
Proof.
  intros now force_insert self db Hok. unfold save.
  set (self1 := if String.eqb (request_id self) "" then _ else self).
  clearbody self1. destruct Hok as (Hbound & Hkeys & Hids).
  unfold keys_of, stored_ids in *.
  assert (Hins : requests_table_ok (fst (fst (insert now self1 db)))).
  { unfold insert.
    set (s1 := set_date_created self1 now).
    assert (Hpk1 : pk s1 = pk self1) by reflexivity.
    destruct (match pk s1 with
              | Some k0 => existsb (has_pk k0) (requests db)
              | None => false end) eqn:Hclash;
      [repeat split; assumption |].
    destruct (request_id_taken s1 (requests db)) eqn:Hfree;
      [repeat split; assumption |].
    set (k := match pk s1 with Some k0 => k0 | None => S (seq_requests db) end).
    cbn [fst]. unfold requests_table_ok, keys_of, stored_ids.
    cbn [requests seq_requests set_requests].
    assert (Hfresh : ~ In (Some k) (map pk (requests db))).
    { unfold k. destruct (pk s1) as [k0|].
      - now apply no_row_of_key.
      - intros Hin. apply in_map_iff in Hin as (r & Hr & Hin).
        rewrite Forall_forall in Hbound.
        destruct (Hbound r Hin) as (k' & Hk' & Hle). rewrite Hr in Hk'.
        injection Hk' as <-. lia. }
    split; [| split].
    - apply Forall_app. split.
      + eapply Forall_impl; [| exact Hbound].
        intros r (k' & Hk' & Hle). exists k'. split; [exact Hk' | lia].
      + constructor; [| constructor]. exists k. split; [reflexivity | lia].
    - rewrite map_app. cbn [map pk set_pk].
      apply NoDup_app; [exact Hkeys | constructor; [intros [] | constructor] |].
      intros x Hx [<- | []]. contradiction.
    - rewrite map_app. cbn [map request_id set_pk].
      apply NoDup_app; [exact Hids | constructor; [intros [] | constructor] |].
      intros x Hx [<- | []].
      apply in_map_iff in Hx as (r & Hid & Hin).
      destruct (request_id_free s1 (requests db) Hfree r Hin Hid) as (k' & Hk' & Hr).
      apply Hfresh. unfold k. rewrite Hk'. apply in_map_iff. eauto. }
  unfold Model_save. destruct (pk self1) as [k|] eqn:Hk; [| exact Hins].
  destruct (negb force_insert && existsb (has_pk k) (requests db)) eqn:Hupd;
    [| exact Hins].
  apply andb_true_iff in Hupd as [_ Hex].
  unfold update. destruct (request_id_taken self1 (requests db)) eqn:Hfree;
    [repeat split; assumption |].
  cbn [fst]. unfold requests_table_ok, keys_of, stored_ids.
  cbn [requests seq_requests set_requests]. split; [| split].
  - apply Forall_forall. intros r Hin.
    apply in_map_iff in Hin as (q & Hq & Hin).
    rewrite Forall_forall in Hbound.
    destruct (has_pk k q) eqn:E.
    + subst r. apply has_pk_iff in E.
      destruct (Hbound q Hin) as (k' & Hk' & Hle).
      exists k. split; [exact Hk |]. congruence.
    + subst r. auto.
  - now rewrite update_keys.
  - now apply update_ids.
Qed.

(** Witness: the stored busy request, saved again five seconds later. *)
Lemma save_keeps_requests_table_witness :
  requests_table_ok populated_store
  /\ requests_table_ok
       (fst (fst (save (new_year_2025 + 5000000) false busy_request populated_store))).
Proof.
  split; [exact populated_store_ok |].
  exact (save_keeps_requests_table (new_year_2025 + 5000000) false busy_request
           populated_store populated_store_ok).
Defined.

(** X6.  [delete] leaves the requests table well formed as well. *)
Theorem delete_keeps_requests_table :
  forall (self : ServiceRequest.t) (db : DB),
    requests_table_ok db -> requests_table_ok (fst (delete self db)).
Proof.
  intros self db (Hbound & Hkeys & Hids). unfold delete.
  destruct (pk self) as [k|]; [| repeat split; assumption].
  cbn [fst]. unfold requests_table_ok, keys_of, stored_ids in *.
  cbn [requests seq_requests].
  split; [now apply Forall_filter_keep |].
  split; now apply keys_distinct_after_filter.
Qed.

(** Witness: the busy request is deleted from the populated store. *)
Lemma delete_keeps_requests_table_witness :
  requests_table_ok populated_store
  /\ requests (fst (delete busy_request populated_store)) = [quiet_request]
  /\ requests_table_ok (fst (delete busy_request populated_store)).
Proof.
  split; [exact populated_store_ok |]. split; [reflexivity |].
  exact (delete_keeps_requests_table busy_request populated_store populated_store_ok).
Defined.

(** X7.  A refused creation sticks: when [save] of a new instance (no key,
    no identifier) is refused because the generated identifier is stored,
    the database is unchanged but the instance keeps the generated
    identifier; so every later [save] of that instance over that database,
    at whatever time, is refused in the same way: it does not generate a
    new identifier. *)
Theorem refused_save_is_refused_again :
  forall (now : datetime) (force_insert : bool) (self self' : ServiceRequest.t)
         (db db' : DB) (e : exn),
    pk self = None -> request_id self = "" ->
    save now force_insert self db = (db', self', Raise e) ->
    e = IntegrityError "request_id"
    /\ db' = db
    /\ request_id self' = generated_id now db
    /\ forall (later : datetime) (force_insert' : bool),
         exists self'',
           save later force_insert' self' db
           = (db, self'', Raise (IntegrityError "request_id"))
           /\ request_id self'' = generated_id now db.
Proof.
  intros now force_insert self self' db db' e Hpk Hid Hsave.
  assert (Hne : generated_id now db <> "").
  { unfold generated_id, id_prefix. cbn. discriminate. }
  unfold save in Hsave. rewrite Hid in Hsave. cbn [String.eqb] in Hsave.
  fold (id_prefix (year now)) in Hsave.
  fold (same_year (year now) db) in Hsave.
  fold (same_year_count (year now) db) in Hsave.
  fold (generated_id now db) in Hsave.
  unfold Model_save, insert, set_request_id, set_date_created in Hsave.
  cbn [pk request_id pin service_type appointment_date pickup_location
       service_location description status date_created views shortlists] in Hsave.
  rewrite Hpk in Hsave.
  destruct (request_id_taken _ (requests db)) eqn:Htaken; [| discriminate].
  injection Hsave as <- <- <-.
  split; [reflexivity |]. split; [reflexivity |]. split; [reflexivity |].
  intros later force_insert'. eexists. split.
  - unfold save. cbn [request_id].
    apply String.eqb_neq in Hne. rewrite Hne.
    unfold Model_save, insert, set_date_created.
    cbn [pk request_id pin service_type appointment_date pickup_location
         service_location description status date_created views shortlists].
    unfold request_id_taken in *. cbn [pk request_id] in *.
    rewrite Htaken. reflexivity.
  - reflexivity.
Qed.

(** Witness: after two creations and the deletion of the first, a new
    request is refused, and refused again a minute later. *)
Lemma refused_save_is_refused_again_witness :
  let fresh := init 1 "ESCORT" (new_year_2025 + 86400000000) "12 Home Road"
                    "City Clinic" "" in
  exists self' : ServiceRequest.t,
    save new_year_2025 true fresh store_after_delete
    = (store_after_delete, self', Raise (IntegrityError "request_id"))
    /\ request_id self' = "RQ-2025-00002"
    /\ forall (later : datetime) (force_insert' : bool),
         exists self'',
           save later force_insert' self' store_after_delete
           = (store_after_delete, self'', Raise (IntegrityError "request_id"))
           /\ request_id self'' = generated_id new_year_2025 store_after_delete.
Proof.
  eexists. split; [reflexivity |]. split; [reflexivity |].
  eapply (refused_save_is_refused_again new_year_2025 true
            (init 1 "ESCORT" (new_year_2025 + 86400000000) "12 Home Road"
                  "City Clinic" "")
            _ store_after_delete store_after_delete
            (IntegrityError "request_id") eq_refl eq_refl eq_refl).
Defined.

Section Reuse.

Lemma filter_all_kept {A} (p : A -> bool) (l : list A) :
  (forall x, In x l -> p x = true) -> filter p l = l.
Proof.
  induction l as [|x l IH]; cbn [filter]; [reflexivity |].
  intros H. rewrite (H x (or_introl eq_refl)), IH; [reflexivity |].
  intros y Hy. apply H. now right.
Qed.

Lemma numbered_same_requests (y : Z) (n : nat) (db db' : DB) :
  requests db' = requests db -> numbered y n db -> numbered y n db'.
Proof. unfold numbered, same_year. now intros ->. Qed.

End Reuse.

(** X8.  Identifiers are handed out again: when the request created last in
    a year is deleted, the table is what it was before that creation, and
    the next creation of the year receives the deleted request's
    [request_id], under a new primary key. *)
Theorem deleted_identifier_is_reused :
  forall (y : Z) (n : nat) (c1 c2 : creation) (db : DB),
    year (called_at c1) = y -> year (called_at c2) = y ->
    numbered y n db -> requests_table_ok db ->
    exists (r1 r2 : ServiceRequest.t) (db1 db3 : DB),
      create c1 db = (db1, Return r1)
      /\ requests (fst (delete r1 db1)) = requests db
      /\ create c2 (fst (delete r1 db1)) = (db3, Return r2)
      /\ request_id r2 = request_id r1
      /\ request_id r1 = id_prefix y ++ format_05d (Z.of_nat n + 1)
      /\ pk r1 = Some (S (seq_requests db))
      /\ pk r2 = Some (S (S (seq_requests db))).
Proof.
  intros y n c1 c2 db Hy1 Hy2 Hnum (Hbound & _ & _).
  destruct (create_numbered y n c1 db Hy1 Hnum) as (Hc1 & Hid1 & _).
  set (r1 := new_row c1 db) in *.
  set (db1 := set_requests db (requests db ++ [r1]) (S (seq_requests db))) in *.
  assert (Hreq : requests (fst (delete r1 db1)) = requests db).
  { rewrite (requests_after_delete (S (seq_requests db))) by reflexivity.
    unfold db1. cbn [requests set_requests]. rewrite filter_app.
    cbn [filter].
    replace (has_pk (S (seq_requests db)) r1) with true
      by (unfold has_pk, r1, new_row; cbn [pk]; now rewrite Nat.eqb_refl).
    cbn [negb]. rewrite List.app_nil_r. apply filter_all_kept.
    intros q Hq. rewrite Forall_forall in Hbound.
    destruct (Hbound q Hq) as (k & Hk & Hle).
    unfold has_pk. rewrite Hk. apply negb_true_iff, Nat.eqb_neq. lia. }
  assert (Hseq : seq_requests (fst (delete r1 db1)) = S (seq_requests db))
    by reflexivity.
  pose proof (numbered_same_requests y n _ _ Hreq Hnum) as Hnum2.
  destruct (create_numbered y n c2 _ Hy2 Hnum2) as (Hc2 & Hid2 & _).
  exists r1, (new_row c2 (fst (delete r1 db1))), db1.
  eexists. split; [exact Hc1 |]. split; [exact Hreq |].
  split; [exact Hc2 |]. split; [now rewrite Hid1, Hid2 |].
  split; [exact Hid1 |]. split; [reflexivity |].
  unfold new_row. cbn [pk]. now rewrite Hseq.
Qed.

(** Witness: the only request of 2025 is created, deleted and created
    again: [RQ-2025-00001] twice, under keys 1 and 2. *)
Lemma deleted_identifier_is_reused_witness :
  exists (r1 r2 : ServiceRequest.t) (db1 db3 : DB),
    create call_2025 empty_db = (db1, Return r1)
    /\ requests (fst (delete r1 db1)) = requests empty_db
    /\ create call_2025 (fst (delete r1 db1)) = (db3, Return r2)
    /\ request_id r2 = request_id r1
    /\ request_id r1 = id_prefix 2025 ++ format_05d (Z.of_nat 0 + 1)
    /\ pk r1 = Some (S (seq_requests empty_db))
    /\ pk r2 = Some (S (S (seq_requests empty_db))).
Proof.
  apply (deleted_identifier_is_reused 2025 0 call_2025 call_2025 empty_db);
    try reflexivity.
  repeat split; constructor.
Defined.

(** X9.  Saving, without [force_insert], an instance whose key is stored and
    whose [request_id] is set is an UPDATE: whether it succeeds or is
    refused, the instance comes back exactly as it went in (in particular
    [date_created] is not stamped again), the table has as many rows as
    before with the same keys in the same order, the key sequence does not
    move, and no other table changes. *)
Theorem save_of_stored_request_is_update :
  forall (now : datetime) (self : ServiceRequest.t) (k : nat) (db : DB),
    pk self = Some k -> request_exists k db = true -> request_id self <> "" ->
    let '(db', self', result) := save now false self db in
    self' = self
    /\ keys_of db' = keys_of db
    /\ seq_requests db' = seq_requests db
    /\ db' = set_requests db (requests db') (seq_requests db)
    /\ (result = Return tt ->
        forall q, In q (requests db') <-> q = self \/ (In q (requests db) /\ pk q <> Some k)).
Proof.
  intros now self k db Hk Hex Hne.
  apply String.eqb_neq in Hne. unfold save. rewrite Hne.
  unfold Model_save. rewrite Hk. unfold request_exists in Hex.
  rewrite Hex. cbn [negb andb]. unfold update.
  destruct (request_id_taken self (requests db)).
  - split; [reflexivity |]. split; [reflexivity |]. split; [reflexivity |].
    split; [now destruct db | discriminate].
  - split; [reflexivity |]. unfold keys_of. cbn [requests seq_requests set_requests].
    split; [now apply update_keys |]. split; [reflexivity |].
    split; [reflexivity |]. intros _ q. rewrite in_map_iff. split.
    + intros (r & Hr & Hin). destruct (has_pk k r) eqn:E; [now left |].
      right. subst q. split; [exact Hin |]. rewrite <- has_pk_iff. congruence.
    + intros [-> | [Hin Hpk]].
      * apply existsb_exists in Hex as (r & Hin & Hr). exists r.
        now rewrite Hr.
      * exists q. split; [| exact Hin].
        destruct (has_pk k q) eqn:E; [| reflexivity].
        apply has_pk_iff in E. contradiction.
Qed.

(** Witness: the busy request is marked completed and saved. *)
Lemma save_of_stored_request_is_update_witness :
  let done := mk (Some 1%nat) "RQ-2025-00001" 1 "DIALYSIS_ESCORT"
                 (new_year_2025 + 86400000000) "12 Home Road" "City Clinic"
                 "weekly session" STATUS_COMPLETED (Some new_year_2025) 3 2 in
  let '(db', self', result) := save (new_year_2025 + 7000000) false done populated_store in
  self' = done
  /\ keys_of db' = keys_of populated_store
  /\ seq_requests db' = seq_requests populated_store
  /\ db' = set_requests populated_store (requests db') (seq_requests populated_store)
  /\ (result = Return tt ->
      forall q, In q (requests db')
                <-> q = done \/ (In q (requests populated_store) /\ pk q <> Some 1%nat)).
Proof.
  apply (save_of_stored_request_is_update (new_year_2025 + 7000000)
           (mk (Some 1%nat) "RQ-2025-00001" 1 "DIALYSIS_ESCORT"
               (new_year_2025 + 86400000000) "12 Home Road" "City Clinic"
               "weekly session" STATUS_COMPLETED (Some new_year_2025) 3 2)
           1%nat populated_store); [reflexivity | reflexivity | discriminate].
Defined.

(** ** Years do not interfere *)

Section Years.

Lemma string_app_assoc (a b c : string) : (a ++ b) ++ c = a ++ (b ++ c).
Proof. induction a as [|x a IH]; cbn; [reflexivity | now rewrite IH]. Qed.

Lemma startswith_cons (c1 c2 : ascii) (s p : string) :
  startswith (String c1 s) (String c2 p) = true <-> c1 = c2 /\ startswith s p = true.
Proof.
  unfold startswith. cbn [String.prefix].
  destruct (ascii_dec c2 c1) as [->|Hne]; split; intros H.
  - auto.
  - apply H.
  - discriminate.
  - destruct H as [H _]. congruence.
Qed.

(** Two digit strings, each closed by a dash: one starts with the other
    only when they are the same. *)
Lemma dash_terminated (a b s : string) :
  all_digits a = true -> all_digits b = true ->
  startswith (a ++ String "-" s) (b ++ "-") = true -> a = b.
Proof.
  revert a. induction b as [|c b IH]; intros a Ha Hb H.
  - destruct a as [|c' a]; [reflexivity |]. cbn [append] in H.
    apply startswith_cons in H as [E _]. subst c'.
    cbn [all_digits] in Ha. apply andb_true_iff in Ha as [Hd _]. vm_compute in Hd. discriminate Hd.
  - destruct a as [|c' a]; cbn [append] in H.
    + apply startswith_cons in H as [E _]. subst c.
      cbn [all_digits] in Hb. apply andb_true_iff in Hb as [Hd _]. vm_compute in Hd. discriminate Hd.
    + apply startswith_cons in H as [<- H].
      cbn [all_digits] in Ha, Hb.
      apply andb_true_iff in Ha as [_ Ha]. apply andb_true_iff in Hb as [_ Hb].
      f_equal. now apply IH.
Qed.

Lemma string_of_uint_inj (d1 d2 : uint) :
  NilEmpty.string_of_uint d1 = NilEmpty.string_of_uint d2 -> d1 = d2.
Proof.
  intros E. pose proof (NilEmpty.usu d1) as H1. rewrite E, NilEmpty.usu in H1.
  congruence.
Qed.

(** [str] of an integer: digits, after a dash when it is negative. *)
Lemma str_shape (y : Z) :
  exists d, d <> Nil
    /\ ((Z.to_int y = Pos d /\ str y = NilEmpty.string_of_uint d)
        \/ (Z.to_int y = Neg d /\ str y = String "-" (NilEmpty.string_of_uint d))).
Proof.
  unfold str. destruct y as [|p|p]; cbn [Z.to_int NilZero.string_of_int].
  - exists zero. split; [discriminate | left; split; reflexivity].
  - exists (Pos.to_uint p). pose proof (DecimalPos.Unsigned.to_uint_nonnil p) as Hn.
    split; [exact Hn | left; split; [reflexivity |]].
    destruct (Pos.to_uint p); [contradiction | reflexivity ..].
  - exists (Pos.to_uint p). pose proof (DecimalPos.Unsigned.to_uint_nonnil p) as Hn.
    split; [exact Hn | right; split; [reflexivity |]].
    destruct (Pos.to_uint p); [contradiction | reflexivity ..].
Qed.

Lemma string_of_uint_head (d : uint) :
  d <> Nil ->
  exists c rest, NilEmpty.string_of_uint d = String c rest /\ is_digit c = true.
Proof.
  intros Hn. destruct d; [contradiction | cbn; eauto ..].
Qed.

(** The prefix of one year begins an identifier of another year never. *)
Lemma id_prefix_separates (y1 y2 : Z) (s : string) :
  startswith (id_prefix y1 ++ s) (id_prefix y2) = true <-> y1 = y2.
Proof.
  split; [| intros ->; apply startswith_app].
  unfold id_prefix. intros H.
  rewrite !string_app_assoc in H. cbn [append] in H.
  do 3 (apply startswith_cons in H as [_ H]).
  destruct (str_shape y1) as (d1 & Hn1 & [[Hi1 Hs1] | [Hi1 Hs1]]);
    destruct (str_shape y2) as (d2 & Hn2 & [[Hi2 Hs2] | [Hi2 Hs2]]);
    rewrite Hs1, Hs2 in H.
  - apply dash_terminated in H; try apply all_digits_string_of_uint.
    apply string_of_uint_inj in H. apply DecimalZ.to_int_inj. congruence.
  - exfalso. destruct (string_of_uint_head d1 Hn1) as (c & rest & E & Hc).
    rewrite E in H. cbn [append] in H. apply startswith_cons in H as [E' _].
    subst c. vm_compute in Hc. discriminate Hc.
  - exfalso. destruct (string_of_uint_head d2 Hn2) as (c & rest & E & Hc).
    rewrite E in H. cbn [append] in H. apply startswith_cons in H as [E' _].
    subst c. vm_compute in Hc. discriminate Hc.
  - cbn [append] in H. apply startswith_cons in H as [_ H].
    apply dash_terminated in H; try apply all_digits_string_of_uint.
    apply string_of_uint_inj in H. apply DecimalZ.to_int_inj. congruence.
Qed.

End Years.

Section SavedIdentifier.

Lemma Model_save_request_id (now : datetime) (force_insert : bool)
    (s : ServiceRequest.t) (db : DB) :
  request_id (snd (fst (Model_save now force_insert s db))) = request_id s.
Proof.
  assert (Hins : request_id (snd (fst (insert now s db))) = request_id s).
  { unfold insert.
    destruct (match pk (set_date_created s now) with
              | Some k0 => existsb (has_pk k0) (requests db)
              | None => false end); [reflexivity |].
    destruct (request_id_taken (set_date_created s now) (requests db));
      reflexivity. }
  unfold Model_save. destruct (pk s) as [k|]; [| exact Hins].
  destruct (negb force_insert && existsb (has_pk k) (requests db)); [| exact Hins].
  unfold update. destruct (request_id_taken s (requests db)); reflexivity.
Qed.

(** The instance that [save] hands back, when it came in without an
    identifier, carries the identifier generated from the count. *)
Lemma save_generates (now : datetime) (force_insert : bool)
    (self : ServiceRequest.t) (db : DB) :
  request_id self = "" ->
  request_id (snd (fst (save now force_insert self db))) = generated_id now db.
Proof.
  intros Hid. unfold save. rewrite Hid. cbn [String.eqb].
  rewrite Model_save_request_id. reflexivity.
Qed.

(** A successful [save] of an instance without a key appends the instance
    it hands back. *)
Lemma save_new_appends (now : datetime) (force_insert : bool)
    (self self' : ServiceRequest.t) (db db' : DB) :
  pk self = None ->
  save now force_insert self db = (db', self', Return tt) ->
  db' = set_requests db (requests db ++ [self']) (S (seq_requests db)).
Proof.
  intros Hpk Hsave. unfold save in Hsave.
  set (self1 := if String.eqb (request_id self) "" then _ else self) in Hsave.
  assert (Hpk1 : pk self1 = None).
  { unfold self1. destruct (String.eqb (request_id self) ""); exact Hpk. }
  clearbody self1. unfold Model_save in Hsave. rewrite Hpk1 in Hsave.
  unfold insert in Hsave. cbn [pk set_date_created] in Hsave.
  rewrite Hpk1 in Hsave.
  destruct (request_id_taken _ (requests db)); [discriminate |].
  injection Hsave as <- <-. now rewrite Nat.max_r by lia.
Qed.

End SavedIdentifier.

(** X10.  The count behind a new identifier is per year.  The instance that
    [save] hands back, when it came in without an identifier, carries an
    identifier that starts with the prefix [RQ-y-] exactly when [y] is the
    year of the call.  When the instance had no key and [save] succeeds, it
    is stored, the number of stored identifiers of the year [y] grows by one
    if [y] is the year of the call and not at all otherwise, and so what a
    later [save] generates in another year is what it would have generated
    had this one not happened. *)
Theorem saved_identifier_counts_for_its_year_only :
  forall (now : datetime) (force_insert : bool) (self : ServiceRequest.t)
         (db : DB) (y : Z),
    request_id self = "" ->
    let '(db', self', result) := save now force_insert self db in
    (startswith (request_id self') (id_prefix y) = true <-> year now = y)
    /\ (pk self = None -> result = Return tt ->
        In self' (requests db')
        /\ same_year_count y db'
           = same_year_count y db + (if Z.eqb (year now) y then 1 else 0)
        /\ (year now <> y ->
            forall (later : datetime) (force_insert' : bool)
                   (other : ServiceRequest.t),
              year later = y -> request_id other = "" ->
              request_id (snd (fst (save later force_insert' other db')))
              = request_id (snd (fst (save later force_insert' other db))))).
Proof.
  intros now force_insert self db y Hid.
  pose proof (save_generates now force_insert self db Hid) as Hgen.
  destruct (save now force_insert self db) as [[db' self'] result] eqn:Hsave.
  cbn [fst snd] in Hgen.
  assert (Hyear : startswith (request_id self') (id_prefix y) = true <-> year now = y).
  { rewrite Hgen. unfold generated_id. apply id_prefix_separates. }
  split; [exact Hyear |]. intros Hpk ->.
  pose proof (save_new_appends now force_insert self self' db db' Hpk Hsave) as ->.
  assert (Hcount : same_year_count y
             (set_requests db (requests db ++ [self']) (S (seq_requests db)))
           = same_year_count y db + (if Z.eqb (year now) y then 1 else 0)).
  { unfold same_year_count, same_year. cbn [requests set_requests].
    rewrite filter_app, List.length_app. cbn [filter].
    destruct (Z.eqb_spec (year now) y) as [Hy|Hy].
    - apply Hyear in Hy. rewrite Hy. cbn [List.length]. lia.
    - replace (startswith (request_id self') (id_prefix y)) with false.
      + cbn [List.length]. lia.
      + symmetry. apply not_true_iff_false. now rewrite Hyear. }
  split; [cbn [requests set_requests]; apply in_or_app; right; now left |].
  split; [exact Hcount |].
  intros Hne later force_insert' other Hlater Hother.
  rewrite !save_generates by exact Hother. unfold generated_id.
  rewrite Hlater, Hcount.
  replace (Z.eqb (year now) y) with false
    by (symmetry; now apply Z.eqb_neq).
  now rewrite Z.add_0_r.
Qed.

(** Witness: the first request of 2025, seen from the year 2024. *)
Lemma saved_identifier_counts_for_its_year_only_witness :
  let '(db', self', result) :=
    save new_year_2025 true
         (init 1 "ESCORT" (new_year_2025 + 86400000000) "12 Home Road"
               "City Clinic" "") empty_db in
  (startswith (request_id self') (id_prefix 2024) = true <-> year new_year_2025 = 2024)
  /\ (pk (init 1 "ESCORT" (new_year_2025 + 86400000000) "12 Home Road"
               "City Clinic" "") = None ->
      result = Return tt ->
      In self' (requests db')
      /\ same_year_count 2024 db'
         = same_year_count 2024 empty_db
           + (if Z.eqb (year new_year_2025) 2024 then 1 else 0)
      /\ (year new_year_2025 <> 2024 ->
          forall (later : datetime) (force_insert' : bool)
                 (other : ServiceRequest.t),
            year later = 2024 -> request_id other = "" ->
            request_id (snd (fst (save later force_insert' other db')))
            = request_id (snd (fst (save later force_insert' other empty_db))))).
Proof.
  apply (saved_identifier_counts_for_its_year_only new_year_2025 true
           (init 1 "ESCORT" (new_year_2025 + 86400000000) "12 Home Road"
                 "City Clinic" "") empty_db 2024).
  reflexivity.
Defined.

Section PerYear.

Lemma create_per_year (f : Z -> nat) (c : creation) (db : DB) :
  (forall y, numbered y (f y) db) ->
  create c db = (set_requests db (requests db ++ [new_row c db]) (S (seq_requests db)),
                 Return (new_row c db))
  /\ request_id (new_row c db)
     = id_prefix (year (called_at c))
       ++ format_05d (Z.of_nat (f (year (called_at c))) + 1)
  /\ forall y, numbered y (if Z.eqb (year (called_at c)) y then S (f y) else f y)
                        (set_requests db (requests db ++ [new_row c db])
                                      (S (seq_requests db))).
Proof.
  intros Hall.
  destruct (create_numbered _ _ c db eq_refl (Hall (year (called_at c))))
    as (Hc & Hid & Hnum).
  split; [exact Hc |]. split; [exact Hid |]. intros y.
  destruct (Z.eqb_spec (year (called_at c)) y) as [<-|Hne]; [exact Hnum |].
  unfold numbered, same_year. cbn [requests set_requests].
  rewrite filter_app. cbn [filter].
  replace (startswith (request_id (new_row c db)) (id_prefix y)) with false.
  - rewrite List.app_nil_r. apply Hall.
  - symmetry. apply not_true_iff_false. rewrite Hid, id_prefix_separates.
    exact Hne.
Qed.

Lemma earlier_in_year_0 (y : Z) (cs : list creation) : earlier_in_year y cs 0 = 0%nat.
Proof. reflexivity. Qed.

Lemma earlier_in_year_S (y : Z) (c : creation) (cs : list creation) (i : nat) :
  earlier_in_year y (c :: cs) (S i)
  = ((if Z.eqb (year (called_at c)) y then 1 else 0) + earlier_in_year y cs i)%nat.
Proof.
  unfold earlier_in_year. cbn [firstn filter].
  destruct (Z.eqb (year (called_at c)) y); reflexivity.
Qed.

Lemma create_all_per_year (cs : list creation) :
  forall (f : Z -> nat) (db : DB),
    (forall y, numbered y (f y) db) ->
    exists objs,
      snd (create_all cs db) = map Return objs
      /\ forall i c obj,
           nth_error cs i = Some c -> nth_error objs i = Some obj ->
           request_id obj
           = id_prefix (year (called_at c))
             ++ format_05d (Z.of_nat (f (year (called_at c))
                                     + earlier_in_year (year (called_at c)) cs i) + 1).
Proof.
  induction cs as [|c0 cs IH]; intros f db Hall.
  - exists []. split; [reflexivity |]. intros [|i] c obj H; discriminate.
  - destruct (create_per_year f c0 db Hall) as (Hc & Hid & Hnext).
    destruct (IH _ _ Hnext) as (objs & Hout & Hids).
    exists (new_row c0 db :: objs). cbn [create_all]. rewrite Hc.
    destruct (create_all cs _) as [db2 os]. cbn [snd] in *.
    split; [now rewrite Hout |].
    intros [|i] c obj Hci Hoi; cbn [nth_error] in Hci, Hoi.
    + injection Hci as <-. injection Hoi as <-.
      rewrite earlier_in_year_0, Nat.add_0_r. exact Hid.
    + rewrite (Hids i c obj Hci Hoi), earlier_in_year_S.
      destruct (Z.eqb (year (called_at c0)) (year (called_at c)));
        do 3 f_equal; lia.
Qed.

End PerYear.

(** X11.  Each year has its own numbering.  Creations made one after the
    other over the empty store, in whatever years and in whatever order of
    years, all succeed, and each receives [RQ-], its own year, a dash and
    one more than the number of earlier creations of that same year,
    zero-padded to at least five digits. *)
Theorem years_are_numbered_separately :
  forall cs : list creation,
    exists objs : list ServiceRequest.t,
      snd (create_all cs empty_db) = map Return objs
      /\ forall i c obj,
           nth_error cs i = Some c -> nth_error objs i = Some obj ->
           request_id obj
           = id_prefix (year (called_at c))
             ++ format_05d (Z.of_nat (earlier_in_year (year (called_at c)) cs i) + 1).
Proof.
  intros cs.
  destruct (create_all_per_year cs (fun _ => 0%nat) empty_db) as (objs & Hout & Hids).
  - intros y. apply numbered_0. reflexivity.
  - exists objs. split; [exact Hout |]. intros i c obj Hc Ho.
    now rewrite (Hids i c obj Hc Ho).
Qed.

(** ** Expiry, single rows, amounts and display *)

(** X12.  Expiry is permanent: a token that is expired at one instant is
    expired at every later instant, and a token that is not yet expired was
    not expired at any earlier one. *)
Theorem is_expired_is_monotone :
  forall (t : OTPToken.t) (earlier later : datetime),
    earlier <= later ->
    (is_expired earlier t = true -> is_expired later t = true)
    /\ (is_expired later t = false -> is_expired earlier t = false).
Proof.
  intros t earlier later Hle. unfold is_expired. split; intros H.
  - apply Z.gtb_gt in H. apply Z.gtb_gt. lia.
  - rewrite Z.gtb_ltb in *. apply Z.ltb_ge in H. apply Z.ltb_ge. lia.
Qed.

(** Witness: a token of the populated store, eleven and twelve minutes after
    it was issued. *)
Lemma is_expired_is_monotone_witness :
  let t := OTPToken.mk 1 1 "493027" (new_year_2025 + 30) false in
  is_expired (new_year_2025 + 660000030) t = true
  /\ (is_expired (new_year_2025 + 660000030) t = true ->
      is_expired (new_year_2025 + 720000030) t = true)
  /\ (is_expired (new_year_2025 + 720000030) t = false ->
      is_expired (new_year_2025 + 660000030) t = false).
Proof.
  split; [reflexivity |].
  apply (is_expired_is_monotone (OTPToken.mk 1 1 "493027" (new_year_2025 + 30) false)
           (new_year_2025 + 660000030) (new_year_2025 + 720000030)).
  discriminate.
Defined.

Section SingleRow.

Lemma count_of_absent {A} (fk : A -> nat) (u : nat) (l : list A) :
  existsb (fun x => Nat.eqb (fk x) u) l = false ->
  filter (fun x => Nat.eqb (fk x) u) l = [].
Proof.
  induction l as [|x l IH]; cbn [existsb filter]; [reflexivity |].
  intros H. apply orb_false_iff in H as [Hx Hl]. rewrite Hx. auto.
Qed.

Lemma count_of_present {A} (fk : A -> nat) (u : nat) (l : list A) :
  NoDup (map fk l) ->
  existsb (fun x => Nat.eqb (fk x) u) l = true ->
  List.length (filter (fun x => Nat.eqb (fk x) u) l) = 1%nat.
Proof.
  induction l as [|x l IH]; cbn [existsb filter map]; [discriminate |].
  intros Hnd H. inversion Hnd as [|? ? Hnotin Hnd']; subst.
  destruct (Nat.eqb (fk x) u) eqn:E.
  - cbn [List.length]. f_equal. rewrite count_of_absent; [reflexivity |].
    apply not_true_iff_false. rewrite existsb_exists. intros (z & Hz & Ez).
    apply Hnotin. apply Nat.eqb_eq in E, Ez. apply in_map_iff. exists z.
    split; [congruence | exact Hz].
  - cbn [orb] in H. auto.
Qed.

Lemma NoDup_snoc_absent {A} (fk : A -> nat) (x : A) (l : list A) :
  NoDup (map fk l) ->
  existsb (fun y => Nat.eqb (fk y) (fk x)) l = false ->
  NoDup (map fk (l ++ [x])).
Proof.
  intros Hnd Habs. rewrite map_app. cbn [map].
  apply NoDup_app; [exact Hnd | constructor; [intros [] | constructor] |].
  intros a Ha [<- | []]. apply not_true_iff_false in Habs. apply Habs.
  apply in_map_iff in Ha as (y & Ey & Hy). apply existsb_exists.
  exists y. split; [exact Hy |]. now apply Nat.eqb_eq.
Qed.

End SingleRow.

(** X13.  At most one preference per user is an invariant of
    [PINPreference.objects.create]: over a table with no user twice, any
    call, accepted or refused, leaves a table with no user twice, in which
    the user of the call has exactly one preference row. *)
Theorem pin_preference_stays_single :
  forall (db : DB) (u : nat) (language gender : string),
    NoDup (map PINPreference.user (pin_prefs db)) ->
    let db' := fst (PINPreference_objects_create u language gender db) in
    NoDup (map PINPreference.user (pin_prefs db'))
    /\ List.length (filter (fun p => Nat.eqb (PINPreference.user p) u) (pin_prefs db'))
       = 1%nat.
Proof.
  intros db u language gender Hnd. unfold PINPreference_objects_create.
  destruct (existsb (fun p => Nat.eqb (PINPreference.user p) u) (pin_prefs db)) eqn:E;
    cbn [fst pin_prefs set_pin_prefs].
  - split; [exact Hnd | now apply count_of_present].
  - split; [now apply NoDup_snoc_absent |].
    rewrite filter_app, (count_of_absent PINPreference.user u) by exact E.
    cbn [filter PINPreference.user]. now rewrite Nat.eqb_refl.
Qed.

(** Witness: a second preference is asked for alice in the populated store. *)
Lemma pin_preference_stays_single_witness :
  let db' := fst (PINPreference_objects_create 1 "Malay" "" populated_store) in
  pin_prefs db' = pin_prefs populated_store
  /\ NoDup (map PINPreference.user (pin_prefs db'))
  /\ List.length (filter (fun p => Nat.eqb (PINPreference.user p) 1) (pin_prefs db'))
     = 1%nat.
Proof.
  split; [reflexivity |].
  apply (pin_preference_stays_single populated_store 1 "Malay" "").
  repeat constructor. intros [].
Defined.

(** X14.  At most one match per request is an invariant of
    [Match.objects.create]: over a table with no request twice, any call,
    accepted or refused, leaves a table with no request twice, in which the
    request of the call has exactly one match. *)
Theorem match_stays_single :
  forall (db : DB) (now : datetime) (r cv : nat) (offered_at : option datetime)
         (accepted : option bool) (accepted_at : option datetime),
    NoDup (map Match.request (matches db)) ->
    let db' := fst (Match_objects_create now r cv offered_at accepted accepted_at db) in
    NoDup (map Match.request (matches db'))
    /\ List.length (match_of r db') = 1%nat.
Proof.
  intros db now r cv offered_at accepted accepted_at Hnd.
  unfold Match_objects_create, match_of.
  destruct (existsb (fun m => Nat.eqb (Match.request m) r) (matches db)) eqn:E;
    cbn [fst matches set_matches].
  - split; [exact Hnd | now apply count_of_present].
  - split; [now apply NoDup_snoc_absent |].
    rewrite filter_app, (count_of_absent Match.request r) by exact E.
    cbn [filter Match.request]. now rewrite Nat.eqb_refl.
Qed.

(** Witness: the quiet request of the populated store gets its first
    match. *)
Lemma match_stays_single_witness :
  let db' := fst (Match_objects_create (new_year_2025 + 40) 2 6 None None None
                    populated_store) in
  List.length (matches db') = 2%nat
  /\ NoDup (map Match.request (matches db'))
  /\ List.length (match_of 2 db') = 1%nat.
Proof.
  split; [reflexivity |].
  apply (match_stays_single populated_store (new_year_2025 + 40) 2 6 None None None).
  repeat constructor. intros [].
Defined.

Section Cents.

(** What the precision validator of the field accepts, as a bound. *)
Lemma DecimalValidator_fits (v : Decimal.t) :
  DecimalValidator 10 2 v = []
  <-> (inject_Z (Z.of_N (Decimal.coefficient v)) * inject_Z 10 ^ Decimal.exponent v
       < inject_Z 100000000)%Q
      /\ -2 <= Decimal.exponent v.
Proof.
  rewrite DecimalValidator_accepts. cbv zeta. unfold Decimal.digit_tuple.
  set (c := Decimal.coefficient v). set (e := Decimal.exponent v).
  pose proof (nb_digits_pos c) as Hpos.
  rewrite magnitude_lt_iff.
  destruct (Z_le_gt_dec 0 e) as [He|He].
  - destruct (N.eq_dec c 0) as [Hc|Hc].
    + rewrite Hc. cbn [Z.of_N]. rewrite Z.mul_0_l.
      assert (0 < 10 ^ 8) by reflexivity. intuition lia.
    + pose proof (shifted_digits_le_iff c e Hc He). intuition lia.
  - pose proof (nb_digits_le_iff c (8 - e) ltac:(lia)). intuition lia.
Qed.

Lemma magnitude_in_cents (c e : Z) :
  -2 <= e ->
  (inject_Z c * inject_Z 10 ^ e == (c * 10 ^ (e + 2)) # 100)%Q.
Proof.
  intros He.
  assert (Hcases : e = -2 \/ e = -1 \/ 0 <= e) by lia.
  destruct Hcases as [-> | [-> | Hnn]].
  - unfold Qeq. cbn. lia.
  - unfold Qeq. cbn. lia.
  - rewrite <- Zpower_Qpower by exact Hnn. rewrite <- inject_Z_mult.
    rewrite Z.pow_add_r by lia. unfold Qeq, inject_Z. cbn [Qnum Qden].
    change (10 ^ 2) with 100. lia.
Qed.

End Cents.

(** X15.  An amount that validation accepts is stored exactly: it is a whole
    number of cents, at least 0 and below 10 000 000 000, the ten digits of
    which two are decimals that the column holds. *)
Theorem accepted_amount_is_whole_cents :
  forall v : Decimal.t,
    clean_total_amount v = Return tt ->
    exists cents : Z,
      0 <= cents < 10000000000
      /\ (Decimal.value v == cents # 100)%Q.
Proof.
  intros v Hok. apply clean_total_amount_accepts in Hok as [Hmin Hdec].
  apply MinValueValidator_accepts in Hmin.
  pose proof (value_nonneg v Hmin) as Hval.
  apply DecimalValidator_fits in Hdec as [Hlt He].
  set (c := Z.of_N (Decimal.coefficient v)) in *.
  set (e := Decimal.exponent v) in *.
  exists (c * 10 ^ (e + 2)). split.
  - assert (Hc : 0 <= c) by (unfold c; lia).
    assert (Hp : 0 < 10 ^ (e + 2)) by (apply Z.pow_pos_nonneg; lia).
    split; [nia |].
    apply magnitude_lt_iff in Hlt as [[Hnn Hlt] | [Hneg Hlt]].
    + rewrite Z.pow_add_r by lia. change (10 ^ 2) with 100.
      change (10 ^ 8) with 100000000 in Hlt. lia.
    + assert (Hcases : e = -2 \/ e = -1) by lia.
      destruct Hcases as [E | E]; rewrite E in *; cbn in Hlt |- *; lia.
  - rewrite Hval. now apply magnitude_in_cents.
Qed.

(** Witness: 12.50, the taxi fare of the populated store. *)
Lemma accepted_amount_is_whole_cents_witness :
  clean_total_amount (Decimal.mk false 1250 (-2)) = Return tt
  /\ exists cents : Z,
       0 <= cents < 10000000000
       /\ (Decimal.value (Decimal.mk false 1250 (-2)) == cents # 100)%Q.
Proof.
  split; [reflexivity |].
  apply (accepted_amount_is_whole_cents (Decimal.mk false 1250 (-2))).
  reflexivity.
Defined.

(** X16.  A negative amount is always refused, and the ValidationError
    carries the code [min_value] first; the precision errors of the same
    value, if any, come with it in the same error. *)
Theorem negative_amount_reports_min_value :
  forall v : Decimal.t,
    (Decimal.value v < 0)%Q ->
    exists rest : list string,
      clean_total_amount v = Raise (ValidationError ("min_value" :: rest))
      /\ rest = DecimalValidator 10 2 v.
Proof.
  intros v Hneg. exists (DecimalValidator 10 2 v). split; [| reflexivity].
  unfold clean_total_amount, run_validators, total_amount_validators.
  cbn [flat_map]. rewrite List.app_nil_r.
  unfold MinValueValidator at 1.
  replace (Qle_bool (inject_Z 0) (Decimal.value v)) with false; [reflexivity |].
  symmetry. apply not_true_iff_false. rewrite Qle_bool_iff.
  change (inject_Z 0) with 0%Q. intros Hle.
  apply (Qlt_irrefl 0). eapply Qle_lt_trans; eauto.
Qed.

(** Witness: -0.001 is refused for its sign and for its third decimal. *)
Lemma negative_amount_reports_min_value_witness :
  clean_total_amount (Decimal.mk true 1 (-3))
  = Raise (ValidationError ["min_value"; "max_decimal_places"])
  /\ exists rest : list string,
       clean_total_amount (Decimal.mk true 1 (-3))
       = Raise (ValidationError ("min_value" :: rest))
       /\ rest = DecimalValidator 10 2 (Decimal.mk true 1 (-3)).
Proof.
  split; [reflexivity |].
  apply (negative_amount_reports_min_value (Decimal.mk true 1 (-3))).
  reflexivity.
Defined.

(** X17.  A copy prints as pending: whatever the status of the request that
    is duplicated, [str] of the copy that [duplicate] returns is its new
    identifier followed by [(Pending)]. *)
Theorem copy_prints_as_pending :
  forall (now : datetime) (r : ServiceRequest.t) (d : datetime) (db db' : DB)
         (copy : ServiceRequest.t),
    duplicate now r d db = (db', Return copy) ->
    ServiceRequest_str copy = generated_id now db ++ " (Pending)".
Proof.
  intros now r d db db' copy Hdup.
  rewrite duplicate_is_create, create_eq in Hdup.
  destruct (id_stored _ db); [discriminate |].
  injection Hdup as _ <-. reflexivity.
Qed.

(** Witness: the busy request, whose status is ACTIVE, is duplicated. *)
Lemma copy_prints_as_pending_witness :
  ServiceRequest_str busy_request = "RQ-2025-00001 (Active)"
  /\ exists (db' : DB) (copy : ServiceRequest.t),
       duplicate (new_year_2025 + 1000000) busy_request
                 (new_year_2025 + 172800000000) busy_store = (db', Return copy)
       /\ ServiceRequest_str copy = "RQ-2025-00002 (Pending)"
       /\ ServiceRequest_str copy
          = generated_id (new_year_2025 + 1000000) busy_store ++ " (Pending)".
Proof.
  split; [reflexivity |].
  exists (fst (duplicate (new_year_2025 + 1000000) busy_request
                 (new_year_2025 + 172800000000) busy_store)).
  exists (new_row (mkCreation (new_year_2025 + 1000000) 1 "DIALYSIS_ESCORT"
                     (new_year_2025 + 172800000000) "12 Home Road" "City Clinic"
                     "weekly session") busy_store).
  split; [reflexivity |]. split; [reflexivity |].
  apply (copy_prints_as_pending (new_year_2025 + 1000000) busy_request
           (new_year_2025 + 172800000000) busy_store
           (fst (duplicate (new_year_2025 + 1000000) busy_request
                   (new_year_2025 + 172800000000) busy_store))).
  reflexivity.
Defined.

Section Issued.

(** [save] writes the requests table and moves the sequence forward, nothing
    else. *)
Lemma save_touches_requests_only (now : datetime) (force_insert : bool)
    (self : ServiceRequest.t) (db : DB) :
  exists rows seq,
    fst (fst (save now force_insert self db)) = set_requests db rows seq
    /\ (seq_requests db <= seq)%nat.
Proof.
  unfold save.
  set (self1 := if String.eqb (request_id self) "" then _ else self).
  clearbody self1.
  assert (Hsame : exists rows seq,
            db = set_requests db rows seq /\ (seq_requests db <= seq)%nat).
  { exists (requests db), (seq_requests db). split; [now destruct db | lia]. }
  assert (Hins : exists rows seq,
            fst (fst (insert now self1 db)) = set_requests db rows seq
            /\ (seq_requests db <= seq)%nat).
  { unfold insert.
    destruct (match pk (set_date_created self1 now) with
              | Some k0 => existsb (has_pk k0) (requests db)
              | None => false end); [exact Hsame |].
    destruct (request_id_taken _ (requests db)); [exact Hsame |].
    cbn [fst]. eexists. eexists. split; [reflexivity | lia]. }
  unfold Model_save. destruct (pk self1) as [k|]; [| exact Hins].
  destruct (negb force_insert && existsb (has_pk k) (requests db)); [| exact Hins].
  unfold update. destruct (request_id_taken self1 (requests db)); [exact Hsame |].
  cbn [fst]. eexists. eexists. split; [reflexivity | lia].
Qed.

End Issued.

(** X18.  Keys once issued stay issued: when every foreign key to a request
    is a key the sequence has issued, the same holds after any [save] (which
    never lowers the sequence and writes no child table) and after any
    [delete] (which only removes rows). *)
Theorem issued_keys_stay_issued :
  forall (now : datetime) (force_insert : bool) (self r : ServiceRequest.t) (db : DB),
    request_fks_issued db = true ->
    request_fks_issued (fst (fst (save now force_insert self db))) = true
    /\ request_fks_issued (fst (delete r db)) = true.
Proof.
  intros now force_insert self r db Hfk. split.
  - destruct (save_touches_requests_only now force_insert self db)
      as (rows & seq & -> & Hle).
    unfold request_fks_issued in *.
    cbn [view_logs shortlist_logs matches messages claims disputes seq_requests
         set_requests].
    repeat (apply andb_true_iff in Hfk as [Hfk ?]).
    repeat (apply andb_true_iff; split);
      (eapply forallb_weaken; [eassumption |]);
      intros x _ Hx; apply Nat.leb_le in Hx; apply Nat.leb_le; lia.
  - unfold delete. destruct (pk r) as [k|]; [| exact Hfk]. cbn [fst].
    unfold request_fks_issued in *.
    cbn [view_logs shortlist_logs matches messages claims disputes seq_requests].
    repeat (apply andb_true_iff in Hfk as [Hfk ?]).
    repeat (apply andb_true_iff; split);
      (eapply forallb_filter_weaken; [eassumption | auto]).
Qed.

(** Witness: the busy store, after a creation and after the deletion of the
    busy request. *)
Lemma issued_keys_stay_issued_witness :
  request_fks_issued busy_store = true
  /\ request_fks_issued
       (fst (fst (save (new_year_2025 + 1000000) true
                       (init 1 "ESCORT" (new_year_2025 + 86400000000)
                             "12 Home Road" "City Clinic" "")
                       busy_store))) = true
  /\ request_fks_issued (fst (delete busy_request busy_store)) = true.
Proof.
  split; [reflexivity |].
  apply (issued_keys_stay_issued (new_year_2025 + 1000000) true
           (init 1 "ESCORT" (new_year_2025 + 86400000000) "12 Home Road"
                 "City Clinic" "") busy_request busy_store).
  reflexivity.
Defined.
